(** * Mini task manager: the Express/SQLite backend of [backend/server.js]

    A shallow embedding of the seven route handlers of [server.js] and of
    the SQL statements they send, followed by the properties of the
    authentication and task-ownership model.

    Modelling conventions.
    - The two tables are lists of rows in rowid order.  AUTOINCREMENT is the
      counter SQLite keeps in [sqlite_sequence]: a fresh id is the counter
      plus one, and a deleted id is never handed out again.
    - [CURRENT_TIMESTAMP] is an integer clock reading [now] supplied with
      every request (the text form 'YYYY-MM-DD HH:MM:SS' orders the same
      way).
    - A field of [req.body] is [option string]: a JSON string, or [None]
      when the field is absent or null.  JavaScript's [!x] and [x || d]
      on such a value are [truthy] and [js_or] below, and [.length] is
      the number of characters of the string.
    - Requests are handled one at a time, and within a request the
      callbacks of [db.get], [db.all] and [db.run] run one after the
      other, so a handler is a program in a state monad over the store;
      the interleaving of the callbacks of two requests is outside the
      model.  Every statement a handler sends is recorded in a trace
      together with the task rows it read or wrote.
    - The storage engine is assumed not to fail, apart from the UNIQUE
      constraint on [users.email]; the [if (err)] branches for other
      failures are therefore not reachable in the model.
    - bcrypt, jsonwebtoken and SQLite's conversion of a text parameter that
      is compared with an INTEGER column are libraries outside the
      repository; they are parameters of the development. *)

From Stdlib Require Import ZArith List String Ascii Bool Lia.
From Stdlib Require Import Sorting.Sorted Sorting.Permutation.
Import ListNotations.

Local Open Scope string_scope.
Local Open Scope list_scope.
Local Open Scope Z_scope.

(** ** Rows and the store *)

Module User.
Record t := mk
  { id : Z;
    email : string;
    password : string;
    created_at : Z }.
End User.

Module Task.
Record t := mk
  { id : Z;
    title : string;
    description : string;
    status : string;
    user_id : Z;
    created_at : Z;
    updated_at : Z }.
End Task.

Record store := mkStore
  { users : list User.t;
    tasks : list Task.t;
    users_seq : Z;
    tasks_seq : Z }.

(** The database right after the two [CREATE TABLE IF NOT EXISTS]. *)
Definition empty_store : store := mkStore [] [] 0 0.

Definition with_tasks (s : store) (l : list Task.t) : store :=
  mkStore (users s) l (users_seq s) (tasks_seq s).

(** ** JavaScript values of the request body *)

Definition truthy (v : option string) : bool :=
  match v with
  | Some s => negb (String.eqb s "")
  | None => false
  end.

(** [v || d] *)
Definition js_or (v : option string) (d : string) : string :=
  match v with
  | Some s => if String.eqb s "" then d else s
  | None => d
  end.

(** The string held by a truthy field. *)
Definition text (v : option string) : string := js_or v "".

(** ** Responses *)

Inductive body :=
| JError (error : string)
| JAuth (message token : string) (id : Z) (email : string)
| JTasks (rows : list Task.t)
| JTask (row : option Task.t)
| JMessage (message : string)
| JHealth (status message : string).

Record response := mkResponse
  { code : Z;
    json : body }.

(** [res.status(c).json({ error: msg })] *)
Definition fail (c : Z) (msg : string) : response := mkResponse c (JError msg).

(** ** SQL statements *)

(** A value bound to the [id = ?] placeholder: [this.lastID] is a number,
    [req.params.id] is text. *)
Inductive param :=
| PInt (n : Z)
| PText (s : string).

Inductive stmt :=
| SelectUserByEmail (email : string)
| InsertUser (email hash : string)
| SelectTasksByOwner (uid : Z)
| InsertTask (title description : string) (uid : Z)
| SelectTaskById (p : param)
| UpdateTask (title description status : string) (p : param) (uid : Z)
| DeleteTask (p : param) (uid : Z).

(** One executed statement and the task rows it read or wrote: the rows a
    SELECT returns, the row an INSERT writes, the rows that the WHERE
    clause of an UPDATE or a DELETE selects. *)
Record event := mkEvent
  { sql : stmt;
    rows : list Task.t }.

(** The statement constrains [user_id] to [o]: in its WHERE clause, or,
    for the INSERT, in the row it writes. *)
Definition owner_filtered (o : Z) (q : stmt) : bool :=
  match q with
  | SelectTasksByOwner uid => uid =? o
  | InsertTask _ _ uid => uid =? o
  | UpdateTask _ _ _ _ uid => uid =? o
  | DeleteTask _ uid => uid =? o
  | SelectTaskById _ => false
  | SelectUserByEmail _ => false
  | InsertUser _ _ => false
  end.

(** ** ORDER BY created_at DESC *)

Fixpoint insert_desc (t : Task.t) (l : list Task.t) : list Task.t :=
  match l with
  | [] => [t]
  | x :: r =>
      if Task.created_at x <=? Task.created_at t
      then t :: l
      else x :: insert_desc t r
  end.

(** Rows with equal [created_at] keep their rowid order; SQLite leaves the
    order of ties open. *)
Definition order_by_created_at_desc (l : list Task.t) : list Task.t :=
  fold_right insert_desc [] l.

(** ** The state monad of a request *)

Record world := mkWorld
  { db : store;
    trace : list event }.

Definition M (A : Type) : Type := world -> A * world.

Definition ret {A} (a : A) : M A := fun w => (a, w).

Definition bind {A B} (m : M A) (k : A -> M B) : M B :=
  fun w => let (a, w') := m w in k a w'.

Notation "x <- m ;; k" := (bind m (fun x => k))
  (at level 61, m at next level, right associativity).

(** Run a statement: [f] is its effect on the store, [touched] the task
    rows it reads or writes. *)
Definition exec {A} (q : stmt) (touched : store -> list Task.t)
           (f : store -> A * store) : M A :=
  fun w =>
    let (a, s') := f (db w) in
    (a, mkWorld s' (trace w ++ [mkEvent q (touched (db w))])).

Definition run {A} (m : M A) (s : store) : A * world := m (mkWorld s []).

Definition reply {A} (m : M A) (s : store) : A := fst (run m s).
Definition after {A} (m : M A) (s : store) : store := db (snd (run m s)).
Definition statements {A} (m : M A) (s : store) : list event :=
  trace (snd (run m s)).

(** A decimal reading of [req.params.id], used to instantiate the
    engine's text-to-number conversion on concrete requests. *)
Definition digit_of (c : ascii) : option Z :=
  let n := Z.of_nat (nat_of_ascii c) in
  if (48 <=? n) && (n <=? 57) then Some (n - 48) else None.

Fixpoint decimal_from (acc : Z) (s : string) : option Z :=
  match s with
  | EmptyString => Some acc
  | String c r =>
      match digit_of c with
      | Some d => decimal_from (10 * acc + d) r
      | None => None
      end
  end.

Definition decimal_of_text (s : string) : option Z :=
  match s with
  | EmptyString => None
  | _ => decimal_from 0 s
  end.

(** ** The browser side: [TaskList.js], [TaskForm.js], [Login.js] and the
    session that [App] keeps

    One handler runs at a time, on the state of the render it was created
    in.  [axios] resolves on a status from 200 to 299 and rejects on any
    other.  An element of the task list is [Some] task, or [None] for a
    datum that is not a task object (the routes never answer with one). *)

From Stdlib Require Import DecimalString.

(** A template literal [`${n}`] on an integer. *)
Definition string_of_number (n : Z) : string :=
  NilZero.string_of_int (Z.to_int n).

(** [formData] of [TaskForm.js]. *)
Module Form.
Record t := mk
  { title : string;
    description : string;
    status : string }.
End Form.

(** [useState({ title: '', description: '', status: 'pending' })] *)
Definition empty_form : Form.t := Form.mk "" "" "pending".

(** The effect of [TaskForm] that fills the form from the task being
    edited; without one the form keeps what it holds. *)
Definition populate_form (task : option Task.t) (formData : Form.t) : Form.t :=
  match task with
  | Some t =>
      Form.mk (Task.title t) (js_or (Some (Task.description t)) "")
              (Task.status t)
  | None => formData
  end.

(** [localStorage] and the state of [App], [Login] and [TaskList]. *)
Module Client.
Record t := mk
  { token : option string;
    user : option (Z * string);
    isAuthenticated : bool;
    loginError : string;
    tasks : list (option Task.t);
    loading : bool;
    error : string;
    showForm : bool;
    editingTask : option Task.t }.
End Client.

Definition setTasks (l : list (option Task.t)) (c : Client.t) : Client.t :=
  Client.mk (Client.token c) (Client.user c) (Client.isAuthenticated c)
            (Client.loginError c) l (Client.loading c) (Client.error c)
            (Client.showForm c) (Client.editingTask c).

Definition setLoading (b : bool) (c : Client.t) : Client.t :=
  Client.mk (Client.token c) (Client.user c) (Client.isAuthenticated c)
            (Client.loginError c) (Client.tasks c) b (Client.error c)
            (Client.showForm c) (Client.editingTask c).

Definition setError (e : string) (c : Client.t) : Client.t :=
  Client.mk (Client.token c) (Client.user c) (Client.isAuthenticated c)
            (Client.loginError c) (Client.tasks c) (Client.loading c) e
            (Client.showForm c) (Client.editingTask c).

Definition setShowForm (b : bool) (c : Client.t) : Client.t :=
  Client.mk (Client.token c) (Client.user c) (Client.isAuthenticated c)
            (Client.loginError c) (Client.tasks c) (Client.loading c)
            (Client.error c) b (Client.editingTask c).

Definition setEditingTask (t : option Task.t) (c : Client.t) : Client.t :=
  Client.mk (Client.token c) (Client.user c) (Client.isAuthenticated c)
            (Client.loginError c) (Client.tasks c) (Client.loading c)
            (Client.error c) (Client.showForm c) t.

Definition setLoginError (e : string) (c : Client.t) : Client.t :=
  Client.mk (Client.token c) (Client.user c) (Client.isAuthenticated c)
            e (Client.tasks c) (Client.loading c) (Client.error c)
            (Client.showForm c) (Client.editingTask c).

(** [handleLogin] of [App] *)
Definition handleLogin (token : string) (userData : Z * string)
           (c : Client.t) : Client.t :=
  Client.mk (Some token) (Some userData) true
            (Client.loginError c) (Client.tasks c) (Client.loading c)
            (Client.error c) (Client.showForm c) (Client.editingTask c).

(** [handleLogout] of [App], passed to [TaskList] as [onLogout] *)
Definition handleLogout (c : Client.t) : Client.t :=
  Client.mk None None false
            (Client.loginError c) (Client.tasks c) (Client.loading c)
            (Client.error c) (Client.showForm c) (Client.editingTask c).

(** [handleEditTask] *)
Definition handleEditTask (task : Task.t) (c : Client.t) : Client.t :=
  setShowForm true (setEditingTask (Some task) c).

(** [handleCloseForm] *)
Definition handleCloseForm (c : Client.t) : Client.t :=
  setEditingTask None (setShowForm false c).

(** The value of the [Authorization] header that [getAuthHeaders] builds:
    [`Bearer ${localStorage.getItem('token')}`], where a missing item
    reads as [null]. *)
Definition getAuthHeaders (c : Client.t) : string :=
  String.append "Bearer "
    (match Client.token c with
     | Some t => t
     | None => "null"
     end).

(** [axios] resolves the promise. *)
Definition resolves (r : response) : bool :=
  (200 <=? code r) && (code r <? 300).

(** [response.data] where a task is expected. *)
Definition data_task (r : response) : option Task.t :=
  match json r with
  | JTask row => row
  | _ => None
  end.

(** [response.data] where the array of tasks is expected. *)
Definition data_tasks (r : response) : list (option Task.t) :=
  match json r with
  | JTasks l => map Some l
  | _ => []
  end.

(** [item.id === id] on an element of the list. *)
Definition has_id (id : Z) (item : option Task.t) : bool :=
  match item with
  | Some t => Task.id t =? id
  | None => false
  end.

(** [tasks.map(t => t.id === id ? data : t)] *)
Definition replace_task (id : Z) (data : option Task.t)
           (l : list (option Task.t)) : list (option Task.t) :=
  map (fun t => if has_id id t then data else t) l.

(** [tasks.filter(task => task.id !== taskId)] *)
Definition remove_task (id : Z) (l : list (option Task.t))
  : list (option Task.t) :=
  filter (fun t => negb (has_id id t)) l.

(** [task.status === 'completed' ? 'pending' : 'completed'] *)
Definition newStatus (task : Task.t) : string :=
  if String.eqb (Task.status task) "completed" then "pending"
  else "completed".

(** ** Stand-ins for the libraries and sample data

    Used only to run the routes on concrete requests. *)

Definition sample_hash (salt p : string) : string :=
  String.append salt (String.append "$" p).

Definition sample_compare (p h : string) : bool :=
  match index 0 "$" h with
  | Some n => String.eqb (substring (S n) (String.length h) h) p
  | None => false
  end.

Definition sample_sign (uid : Z) (e : string) (now : Z) : string :=
  String.append "token-of-" e.

(** Account 1 owns one task; account 2 owns none. *)
Definition milk : Task.t :=
  Task.mk 1 "Buy milk" "2 litres" "completed" 1 10 10.

Definition sample_store : store :=
  mkStore [User.mk 1 "a@x.com" (sample_hash "s1" "secret1") 5;
           User.mk 2 "b@x.com" (sample_hash "s2" "hunter22") 6]
          [milk] 2 1.

(** [authHeader.split(' ')] *)
Fixpoint split_space (s : string) : list string :=
  match s with
  | EmptyString => [""]
  | String c r =>
      if Ascii.eqb c " "%char then "" :: split_space r
      else match split_space r with
           | h :: t => String c h :: t
           | [] => [String c ""]
           end
  end.

(** The payload of a session token. *)
Record claims := mkClaims
  { userId : Z;
    claim_email : string }.

(** A stand-in for [jwt.verify] that accepts the tokens [sample_sign]
    makes for three accounts, and two browser states over
    [sample_store]: account 1 signed in with its list on screen, and a
    browser that holds a token the stand-in rejects. *)
Definition sample_verify (token : string) (now : Z) : option claims :=
  if String.eqb token "token-of-a@x.com" then Some (mkClaims 1 "a@x.com")
  else if String.eqb token "token-of-b@x.com" then Some (mkClaims 2 "b@x.com")
  else if String.eqb token "token-of-c@x.com" then Some (mkClaims 3 "c@x.com")
  else None.

Definition sample_client : Client.t :=
  Client.mk (Some "token-of-a@x.com") (Some (1, "a@x.com")) true ""
            [Some milk] false "" false None.

Definition stale_client : Client.t :=
  Client.mk (Some "expired") (Some (1, "a@x.com")) true ""
            [Some milk] false "" false None.

Section Server.

Set Default Proof Using "Type".

(** *** Libraries outside the repository *)

(** SQLite comparing a text parameter with the INTEGER column [id]: the
    integer the text converts to, if any. *)
Variable numeric_of_text : string -> option Z.
(** [bcrypt.hash(password, 10)], the salt it draws made explicit. *)
Variable bcrypt_hash : string -> string -> string.
(** [bcrypt.compare(password, hash)] *)
Variable bcrypt_compare : string -> string -> bool.
(** [jwt.sign({ userId, email }, secret, { expiresIn: '24h' })] at a
    given time. *)
Variable jwt_sign : Z -> string -> Z -> string.
(** [jwt.verify(token, secret)] at a given time. *)
Variable jwt_verify : string -> Z -> option claims.

(** *** The WHERE clauses *)

Definition as_rowid (p : param) : option Z :=
  match p with
  | PInt n => Some n
  | PText s => numeric_of_text s
  end.

(** [id = ?] *)
Definition id_is (p : param) (t : Task.t) : bool :=
  match as_rowid p with
  | Some n => Task.id t =? n
  | None => false
  end.

(** [user_id = ?] *)
Definition owned_by (uid : Z) (t : Task.t) : bool := Task.user_id t =? uid.

(** [id = ? AND user_id = ?] *)
Definition id_and_owner (p : param) (uid : Z) (t : Task.t) : bool :=
  id_is p t && owned_by uid t.

(** [email = ?] *)
Definition email_is (e : string) (u : User.t) : bool :=
  String.eqb (User.email u) e.

(** *** The statements, as functions on the store *)

(** [SELECT * FROM users WHERE email = ?], first row. *)
Definition select_user (e : string) (s : store) : option User.t :=
  find (email_is e) (users s).

(** [INSERT INTO users (email, password) VALUES (?, ?)]: [None] when the
    UNIQUE constraint on [email] rejects the row, else [this.lastID]. *)
Definition insert_user (now : Z) (e h : string) (s : store)
  : option Z * store :=
  if existsb (email_is e) (users s) then (None, s)
  else
    let n := users_seq s + 1 in
    (Some n,
     mkStore (users s ++ [User.mk n e h now]) (tasks s) n (tasks_seq s)).

(** [SELECT * FROM tasks WHERE user_id = ? ORDER BY created_at DESC] *)
Definition select_tasks (uid : Z) (s : store) : list Task.t :=
  order_by_created_at_desc (filter (owned_by uid) (tasks s)).

(** The row written by
    [INSERT INTO tasks (title, description, user_id) VALUES (?, ?, ?)];
    [status], [created_at] and [updated_at] take their column defaults. *)
Definition new_task (now : Z) (ti de : string) (uid : Z) (s : store)
  : Task.t :=
  Task.mk (tasks_seq s + 1) ti de "pending" uid now now.

Definition insert_task (now : Z) (ti de : string) (uid : Z) (s : store)
  : Z * store :=
  let r := new_task now ti de uid s in
  (Task.id r,
   mkStore (users s) (tasks s ++ [r]) (users_seq s) (Task.id r)).

(** [SELECT * FROM tasks WHERE id = ?], first row. *)
Definition select_task (p : param) (s : store) : option Task.t :=
  find (id_is p) (tasks s).

(** [SET title = ?, description = ?, status = ?,
    updated_at = CURRENT_TIMESTAMP] on one row. *)
Definition set_fields (now : Z) (ti de st : string) (t : Task.t) : Task.t :=
  Task.mk (Task.id t) ti de st (Task.user_id t) (Task.created_at t) now.

(** [UPDATE tasks SET ... WHERE id = ? AND user_id = ?]; the number
    returned is [this.changes]. *)
Definition update_task (now : Z) (ti de st : string) (p : param) (uid : Z)
           (s : store) : Z * store :=
  (Z.of_nat (List.length (filter (id_and_owner p uid) (tasks s))),
   with_tasks s
     (map (fun t => if id_and_owner p uid t
                    then set_fields now ti de st t else t)
          (tasks s))).

(** [DELETE FROM tasks WHERE id = ? AND user_id = ?] *)
Definition delete_task (p : param) (uid : Z) (s : store) : Z * store :=
  (Z.of_nat (List.length (filter (id_and_owner p uid) (tasks s))),
   with_tasks s (filter (fun t => negb (id_and_owner p uid t)) (tasks s))).

(** *** [db.get], [db.all], [db.run] with the statements of the routes *)

Definition none_touched (s : store) : list Task.t := [].

Definition option_rows (o : option Task.t) : list Task.t :=
  match o with
  | Some t => [t]
  | None => []
  end.

Definition db_get_user (e : string) : M (option User.t) :=
  exec (SelectUserByEmail e) none_touched (fun s => (select_user e s, s)).

Definition db_run_insert_user (now : Z) (e h : string) : M (option Z) :=
  exec (InsertUser e h) none_touched (insert_user now e h).

Definition db_all_tasks (uid : Z) : M (list Task.t) :=
  exec (SelectTasksByOwner uid) (select_tasks uid)
       (fun s => (select_tasks uid s, s)).

Definition db_run_insert_task (now : Z) (ti de : string) (uid : Z) : M Z :=
  exec (InsertTask ti de uid) (fun s => [new_task now ti de uid s])
       (insert_task now ti de uid).

Definition db_get_task (p : param) : M (option Task.t) :=
  exec (SelectTaskById p) (fun s => option_rows (select_task p s))
       (fun s => (select_task p s, s)).

Definition db_run_update_task (now : Z) (ti de st : string) (p : param)
           (uid : Z) : M Z :=
  exec (UpdateTask ti de st p uid)
       (fun s => filter (id_and_owner p uid) (tasks s))
       (update_task now ti de st p uid).

Definition db_run_delete_task (p : param) (uid : Z) : M Z :=
  exec (DeleteTask p uid)
       (fun s => filter (id_and_owner p uid) (tasks s))
       (delete_task p uid).

(** *** The middleware and the routes *)

(** [authenticateToken] *)
Definition authenticateToken (now : Z) (authorization : option string)
           (next : claims -> M response) : M response :=
  let token :=
    match authorization with
    | Some h => if truthy (Some h) then nth_error (split_space h) 1
                else Some h
    | None => None
    end in
  if negb (truthy token) then ret (fail 401 "Access token required")
  else
    match jwt_verify (text token) now with
    | None => ret (fail 403 "Invalid or expired token")
    | Some user => next user
    end.

(** [app.post('/auth/signup')] *)
Definition post_auth_signup (now : Z) (salt : string)
           (email password : option string) : M response :=
  if negb (truthy email) || negb (truthy password)
  then ret (fail 400 "Email and password are required")
  else if (String.length (text password) <? 6)%nat
  then ret (fail 400 "Password must be at least 6 characters")
  else
    user <- db_get_user (text email) ;;
    match user with
    | Some _ => ret (fail 400 "User already exists")
    | None =>
        let hashedPassword := bcrypt_hash salt (text password) in
        r <- db_run_insert_user now (text email) hashedPassword ;;
        match r with
        | None => ret (fail 500 "Failed to create user")
        | Some lastID =>
            ret (mkResponse 201
                   (JAuth "User created successfully"
                          (jwt_sign lastID (text email) now)
                          lastID (text email)))
        end
    end.

(** [app.post('/auth/login')] *)
Definition post_auth_login (now : Z) (email password : option string)
  : M response :=
  if negb (truthy email) || negb (truthy password)
  then ret (fail 400 "Email and password are required")
  else
    user <- db_get_user (text email) ;;
    match user with
    | None => ret (fail 400 "Invalid credentials")
    | Some u =>
        if negb (bcrypt_compare (text password) (User.password u))
        then ret (fail 400 "Invalid credentials")
        else
          ret (mkResponse 200
                 (JAuth "Login successful"
                        (jwt_sign (User.id u) (User.email u) now)
                        (User.id u) (User.email u)))
    end.

(** [app.get('/tasks')], after the middleware. *)
Definition get_tasks (uid : Z) : M response :=
  l <- db_all_tasks uid ;;
  ret (mkResponse 200 (JTasks l)).

(** [app.post('/tasks')], after the middleware. *)
Definition post_tasks (now : Z) (uid : Z) (title description : option string)
  : M response :=
  if negb (truthy title) then ret (fail 400 "Title is required")
  else
    lastID <- db_run_insert_task now (text title) (js_or description "") uid ;;
    task <- db_get_task (PInt lastID) ;;
    ret (mkResponse 201 (JTask task)).

(** [app.put('/tasks/:id')], after the middleware. *)
Definition put_tasks_id (now : Z) (uid : Z) (taskId : string)
           (title description status : option string) : M response :=
  if negb (truthy title) then ret (fail 400 "Title is required")
  else
    changes <- db_run_update_task now (text title) (js_or description "")
                 (js_or status "pending") (PText taskId) uid ;;
    if changes =? 0 then ret (fail 404 "Task not found or unauthorized")
    else
      task <- db_get_task (PText taskId) ;;
      ret (mkResponse 200 (JTask task)).

(** [app.delete('/tasks/:id')], after the middleware. *)
Definition delete_tasks_id (uid : Z) (taskId : string) : M response :=
  changes <- db_run_delete_task (PText taskId) uid ;;
  if changes =? 0 then ret (fail 404 "Task not found or unauthorized")
  else ret (mkResponse 200 (JMessage "Task deleted successfully")).

(** [app.get('/health')] *)
Definition get_health : M response :=
  ret (mkResponse 200 (JHealth "OK" "Server is running")).

(** *** The task operations and the server as a transition system *)

(** The four operations of the task store, as issued by an account that
    passed the middleware. *)
Inductive operation :=
| OpList
| OpCreate (title description : option string)
| OpUpdate (taskId : string) (title description status : option string)
| OpDelete (taskId : string).

Definition task_operation (now : Z) (uid : Z) (op : operation)
  : M response :=
  match op with
  | OpList => get_tasks uid
  | OpCreate ti de => post_tasks now uid ti de
  | OpUpdate i ti de st => put_tasks_id now uid i ti de st
  | OpDelete i => delete_tasks_id uid i
  end.

(** An HTTP request: the two open routes, a task route with its
    [Authorization] header, or the health check. *)
Inductive request :=
| Signup (salt : string) (email password : option string)
| Login (email password : option string)
| Tasks (authorization : option string) (op : operation)
| Health.

Definition handle (now : Z) (r : request) : M response :=
  match r with
  | Signup salt e p => post_auth_signup now salt e p
  | Login e p => post_auth_login now e p
  | Tasks a op =>
      authenticateToken now a
        (fun user => task_operation now (userId user) op)
  | Health => get_health
  end.

(** The stores the server can be in: the empty database, and whatever a
    signup or a task operation, arriving at any time, turns a reachable
    store into. *)
Inductive reachable : store -> Prop :=
| reachable_empty : reachable empty_store
| reachable_signup s now salt e p :
    reachable s -> reachable (after (post_auth_signup now salt e p) s)
| reachable_task s now uid op :
    reachable s -> reachable (after (task_operation now uid op) s).

(** *** The schema's constraints *)

Fixpoint distinct (l : list Z) : bool :=
  match l with
  | [] => true
  | x :: r => negb (existsb (Z.eqb x) r) && distinct r
  end.

Fixpoint distinct_text (l : list string) : bool :=
  match l with
  | [] => true
  | x :: r => negb (existsb (String.eqb x) r) && distinct_text r
  end.

(** PRIMARY KEY on both tables, UNIQUE on [users.email], and ids handed
    out by AUTOINCREMENT. *)
Definition constraints (s : store) : bool :=
  distinct (map Task.id (tasks s))
  && forallb (fun t => Task.id t <=? tasks_seq s) (tasks s)
  && distinct (map User.id (users s))
  && forallb (fun u => User.id u <=? users_seq s) (users s)
  && distinct_text (map User.email (users s)).

(** [status] is one of the two values of the enumeration. *)
Definition status_ok (st : string) : bool :=
  String.eqb st "pending" || String.eqb st "completed".

(** Newest first. *)
Definition newer_or_same (a b : Task.t) : Prop :=
  Task.created_at b <= Task.created_at a.

(** Every task row the statement read or wrote belongs to [o]. *)
Definition touches_only (o : Z) (e : event) : bool :=
  forallb (owned_by o) (rows e).

(** The query that fetches a row back after a Create or an Update:
    [WHERE id = ?] and nothing else. *)
Definition fetch_back (q : stmt) : bool :=
  match q with
  | SelectTaskById _ => true
  | _ => false
  end.

(** Every row of [tasks] has a status of the enumeration. *)
Definition all_status_ok (s : store) : bool :=
  forallb (fun t => status_ok (Task.status t)) (tasks s).

(** The operation does not carry a status outside the enumeration: only
    an Update carries one, and it may be absent or empty. *)
Definition carries_enum_status (op : operation) : bool :=
  match op with
  | OpUpdate _ _ _ st => negb (truthy st) || status_ok (text st)
  | _ => true
  end.

(** No space among the characters of [s]. *)
Fixpoint has_no_space (s : string) : bool :=
  match s with
  | EmptyString => true
  | String c r => negb (Ascii.eqb c " "%char) && has_no_space r
  end.

(** What the validation of the routes guarantees about stored rows: ids
    are positive, a task has a title, an account has an email and, as
    password, the hash of a password of at least 6 characters. *)
Definition rows_well_formed (s : store) : Prop :=
  0 <= users_seq s /\ 0 <= tasks_seq s
  /\ (forall t, In t (tasks s) -> 0 < Task.id t /\ Task.title t <> "")
  /\ (forall u, In u (users s) ->
        0 < User.id u /\ User.email u <> ""
        /\ exists salt p, (6 <= String.length p)%nat
                          /\ User.password u = bcrypt_hash salt p).

(** *** The handlers of the browser side that call the server *)

(** An [axios] call to a task route, with the header of [getAuthHeaders]. *)
Definition call_tasks (now : Z) (c : Client.t) (op : operation) : M response :=
  handle now (Tasks (Some (getAuthHeaders c)) op).

(** [fetchTasks] *)
Definition fetchTasks (now : Z) (c : Client.t) : M Client.t :=
  response <- call_tasks now (setLoading true c) OpList ;;
  if resolves response
  then ret (setLoading false (setTasks (data_tasks response)
                                       (setLoading true c)))
  else
    let c' := setError "Failed to fetch tasks" (setLoading true c) in
    ret (setLoading false
           (if code response =? 401 then handleLogout c' else c')).

(** [handleAddTask] *)
Definition handleAddTask (now : Z) (taskData : Form.t) (c : Client.t)
  : M Client.t :=
  response <- call_tasks now c
                (OpCreate (Some (Form.title taskData))
                          (Some (Form.description taskData))) ;;
  if resolves response
  then ret (setShowForm false
              (setTasks (data_task response :: Client.tasks c) c))
  else ret (setError "Failed to create task" c).

(** [handleUpdateTask]; reading [editingTask.id] of [null] throws inside
    the [try], before any request is made. *)
Definition handleUpdateTask (now : Z) (taskData : Form.t) (c : Client.t)
  : M Client.t :=
  match Client.editingTask c with
  | None => ret (setError "Failed to update task" c)
  | Some editing =>
      response <- call_tasks now c
                    (OpUpdate (string_of_number (Task.id editing))
                              (Some (Form.title taskData))
                              (Some (Form.description taskData))
                              (Some (Form.status taskData))) ;;
      if resolves response
      then ret (setShowForm false
                  (setEditingTask None
                     (setTasks (replace_task (Task.id editing)
                                             (data_task response)
                                             (Client.tasks c)) c)))
      else ret (setError "Failed to update task" c)
  end.

(** [handleDeleteTask]; [confirmed] is the answer to [window.confirm]. *)
Definition handleDeleteTask (now : Z) (taskId : Z) (confirmed : bool)
           (c : Client.t) : M Client.t :=
  if confirmed then
    response <- call_tasks now c (OpDelete (string_of_number taskId)) ;;
    if resolves response
    then ret (setTasks (remove_task taskId (Client.tasks c)) c)
    else ret (setError "Failed to delete task" c)
  else ret c.

(** [handleToggleStatus] *)
Definition handleToggleStatus (now : Z) (task : Task.t) (c : Client.t)
  : M Client.t :=
  response <- call_tasks now c
                (OpUpdate (string_of_number (Task.id task))
                          (Some (Task.title task))
                          (Some (Task.description task))
                          (Some (newStatus task))) ;;
  if resolves response
  then ret (setTasks (replace_task (Task.id task) (data_task response)
                                   (Client.tasks c)) c)
  else ret (setError "Failed to update task status" c).

(** [handleSubmit] of [Login.js], in sign-up or in login mode, with the
    salt that the server's [bcrypt.hash] draws. *)
Definition handleSubmit (now : Z) (salt : string) (isSignUp : bool)
           (email password : string) (c : Client.t) : M Client.t :=
  response <- (if isSignUp
               then handle now (Signup salt (Some email) (Some password))
               else handle now (Login (Some email) (Some password))) ;;
  if resolves response
  then
    match json response with
    | JAuth _ token id e => ret (handleLogin token (id, e) (setLoginError "" c))
    | _ => ret (setLoginError "" c)
    end
  else
    match json response with
    | JError msg => ret (setLoginError (js_or (Some msg) "An error occurred") c)
    | _ => ret (setLoginError "An error occurred" c)
    end.

(** The account [uid] is signed in: the stored token is a non-empty word
    that [jwt.verify] accepts at time [now] with that [userId]. *)
Definition signed_in (now : Z) (c : Client.t) (uid : Z) : Prop :=
  exists t user,
    Client.token c = Some t
    /\ t <> "" /\ has_no_space t = true
    /\ jwt_verify t now = Some user
    /\ userId user = uid.

(** The list on screen is the list the server would answer. *)
Definition in_sync (uid : Z) (c : Client.t) (s : store) : Prop :=
  Client.tasks c = map Some (select_tasks uid s).

(** ** Facts about lists of rows *)

Lemma with_tasks_same (s : store) : with_tasks s (tasks s) = s.
Proof. destruct s; reflexivity. Qed.

Lemma existsb_eqb_In (x : Z) (l : list Z) :
  existsb (Z.eqb x) l = true <-> In x l.
Proof.
  rewrite existsb_exists. split.
  - intros (y & Hy & E). apply Z.eqb_eq in E. now subst.
  - intros H. exists x. split; [assumption | apply Z.eqb_refl].
Qed.

Lemma existsb_text_In (x : string) (l : list string) :
  existsb (String.eqb x) l = true <-> In x l.
Proof.
  rewrite existsb_exists. split.
  - intros (y & Hy & E). apply String.eqb_eq in E. now subst.
  - intros H. exists x. split; [assumption | apply String.eqb_refl].
Qed.

Lemma distinct_NoDup (l : list Z) : distinct l = true <-> NoDup l.
Proof.
  induction l as [|x r IH]; cbn.
  - split; [constructor | reflexivity].
  - rewrite andb_true_iff, negb_true_iff, IH. split.
    + intros [Hx Hr]. constructor; [|assumption].
      intros Hin. apply existsb_eqb_In in Hin. congruence.
    + intros Hnd. inversion Hnd as [|y r' Hx Hr]; subst. split; [|assumption].
      destruct (existsb (Z.eqb x) r) eqn:E; [|reflexivity].
      apply existsb_eqb_In in E. contradiction.
Qed.

Lemma distinct_text_NoDup (l : list string) :
  distinct_text l = true <-> NoDup l.
Proof.
  induction l as [|x r IH]; cbn.
  - split; [constructor | reflexivity].
  - rewrite andb_true_iff, negb_true_iff, IH. split.
    + intros [Hx Hr]. constructor; [|assumption].
      intros Hin. apply existsb_text_In in Hin. congruence.
    + intros Hnd. inversion Hnd as [|y r' Hx Hr]; subst. split; [|assumption].
      destruct (existsb (String.eqb x) r) eqn:E; [|reflexivity].
      apply existsb_text_In in E. contradiction.
Qed.

(** A key that occurs once names one row. *)
Lemma NoDup_key_inj {A K} (key : A -> K) (l : list A) (a b : A) :
  NoDup (map key l) -> In a l -> In b l -> key a = key b -> a = b.
Proof.
  induction l as [|x r IH]; cbn; [contradiction|].
  intros Hnd Ha Hb E. inversion Hnd as [|y r' Hx Hr]; subst.
  destruct Ha as [->|Ha], Hb as [->|Hb].
  - reflexivity.
  - exfalso. apply Hx. rewrite E. now apply in_map.
  - exfalso. apply Hx. rewrite <- E. now apply in_map.
  - now apply IH.
Qed.

(** The table splits around a row, and no other row has its key. *)
Lemma NoDup_key_split {A K} (key : A -> K) (l : list A) (a : A) :
  NoDup (map key l) -> In a l ->
  exists pre post,
    l = pre ++ a :: post
    /\ (forall x, In x pre -> key x <> key a)
    /\ (forall x, In x post -> key x <> key a).
Proof.
  induction l as [|x r IH]; cbn; [contradiction|].
  intros Hnd Ha. inversion Hnd as [|y r' Hx Hr]; subst.
  destruct Ha as [->|Ha].
  - exists [], r. split; [reflexivity|]. split; [contradiction|].
    intros y Hy E. apply Hx. rewrite <- E. now apply in_map.
  - destruct (IH Hr Ha) as (pre & post & -> & Hpre & Hpost).
    exists (x :: pre), post. split; [reflexivity|]. split; [|assumption].
    intros y [<-|Hy]; [|now apply Hpre].
    intros E. apply Hx. rewrite E. apply in_map.
    apply in_or_app. right. now left.
Qed.

Lemma filter_none {A} (f : A -> bool) (l : list A) :
  (forall x, In x l -> f x = false) -> filter f l = [].
Proof.
  induction l as [|x r IH]; cbn; intros H; [reflexivity|].
  rewrite (H x (or_introl eq_refl)). apply IH. intros y Hy. apply H. now right.
Qed.

Lemma filter_all {A} (f : A -> bool) (l : list A) :
  (forall x, In x l -> f x = true) -> filter f l = l.
Proof.
  induction l as [|x r IH]; cbn; intros H; [reflexivity|].
  rewrite (H x (or_introl eq_refl)). f_equal. apply IH.
  intros y Hy. apply H. now right.
Qed.

Lemma map_untouched {A} (f : A -> bool) (g : A -> A) (l : list A) :
  (forall x, In x l -> f x = false) ->
  map (fun x => if f x then g x else x) l = l.
Proof.
  induction l as [|x r IH]; cbn; intros H; [reflexivity|].
  rewrite (H x (or_introl eq_refl)). f_equal. apply IH.
  intros y Hy. apply H. now right.
Qed.

(** ** ORDER BY: a sorted permutation *)

Lemma insert_desc_perm (t : Task.t) (l : list Task.t) :
  Permutation (insert_desc t l) (t :: l).
Proof.
  induction l as [|x r IH]; cbn; [reflexivity|].
  destruct (Task.created_at x <=? Task.created_at t); [reflexivity|].
  rewrite IH. apply perm_swap.
Qed.

Lemma order_by_perm (l : list Task.t) :
  Permutation (order_by_created_at_desc l) l.
Proof.
  induction l as [|x r IH]; cbn; [reflexivity|].
  rewrite insert_desc_perm. now constructor.
Qed.

Lemma insert_desc_sorted (t : Task.t) (l : list Task.t) :
  StronglySorted newer_or_same l ->
  StronglySorted newer_or_same (insert_desc t l).
Proof.
  induction 1 as [|x r Hr IH Hx]; cbn.
  - constructor; constructor.
  - destruct (Task.created_at x <=? Task.created_at t) eqn:E.
    + apply Z.leb_le in E. constructor; [now constructor|].
      constructor; [exact E|].
      rewrite Forall_forall in *. intros y Hy.
      specialize (Hx y Hy). unfold newer_or_same in *. lia.
    + apply Z.leb_gt in E. constructor; [assumption|].
      rewrite Forall_forall in *. intros y Hy.
      apply (Permutation_in _ (insert_desc_perm t r)) in Hy.
      destruct Hy as [<-|Hy]; [unfold newer_or_same; lia | now apply Hx].
Qed.

Lemma order_by_sorted (l : list Task.t) :
  StronglySorted newer_or_same (order_by_created_at_desc l).
Proof.
  induction l as [|x r IH]; cbn; [constructor|].
  now apply insert_desc_sorted.
Qed.

Lemma select_tasks_In (uid : Z) (s : store) (t : Task.t) :
  In t (select_tasks uid s) <-> In t (tasks s) /\ Task.user_id t = uid.
Proof.
  unfold select_tasks. split.
  - intros H. apply (Permutation_in _ (order_by_perm _)) in H.
    apply filter_In in H. destruct H as [H E]. split; [assumption|].
    now apply Z.eqb_eq in E.
  - intros [H E]. apply (Permutation_in _ (Permutation_sym (order_by_perm _))).
    apply filter_In. split; [assumption|]. now apply Z.eqb_eq.
Qed.

(** ** The constraints hold in every reachable store *)

Lemma constraints_spec (s : store) :
  constraints s = true <->
  NoDup (map Task.id (tasks s))
  /\ (forall t, In t (tasks s) -> Task.id t <= tasks_seq s)
  /\ NoDup (map User.id (users s))
  /\ (forall u, In u (users s) -> User.id u <= users_seq s)
  /\ NoDup (map User.email (users s)).
Proof.
  unfold constraints.
  rewrite !andb_true_iff, !distinct_NoDup, distinct_text_NoDup, !forallb_forall.
  split.
  - intros ((((H1 & H2) & H3) & H4) & H5). repeat split; try assumption.
    + intros t Ht. apply Z.leb_le. now apply H2.
    + intros u Hu. apply Z.leb_le. now apply H4.
  - intros (H1 & H2 & H3 & H4 & H5). repeat split; try assumption.
    + intros t Ht. apply Z.leb_le. now apply H2.
    + intros u Hu. apply Z.leb_le. now apply H4.
Qed.

Lemma NoDup_map_filter {A K} (key : A -> K) (f : A -> bool) (l : list A) :
  NoDup (map key l) -> NoDup (map key (filter f l)).
Proof.
  induction l as [|x r IH]; cbn; intros Hnd; [constructor|].
  inversion Hnd as [|y r' Hx Hr]; subst.
  destruct (f x); cbn; [|now apply IH].
  constructor; [|now apply IH].
  intros Hin. apply Hx. apply in_map_iff in Hin.
  destruct Hin as (y & E & Hy). apply filter_In in Hy.
  rewrite <- E. apply in_map. tauto.
Qed.

Lemma NoDup_snoc_fresh (l : list Z) (bound : Z) :
  NoDup l -> (forall x, In x l -> x <= bound) -> NoDup (l ++ [bound + 1]).
Proof.
  intros Hnd Hle. apply NoDup_app; [assumption | repeat constructor; intros [] |].
  intros x Hx [<-|[]]. specialize (Hle _ Hx). lia.
Qed.

Lemma constraints_insert_task now ti de uid s :
  constraints s = true ->
  constraints (snd (insert_task now ti de uid s)) = true.
Proof.
  rewrite !constraints_spec. cbn.
  intros (H1 & H2 & H3 & H4 & H5). repeat split; try assumption.
  - rewrite map_app. cbn. apply NoDup_snoc_fresh; [assumption|].
    intros x Hx. apply in_map_iff in Hx. destruct Hx as (t & <- & Ht).
    now apply H2.
  - intros t Ht. apply in_app_or in Ht. destruct Ht as [Ht|[<-|[]]].
    + specialize (H2 _ Ht). lia.
    + cbn. lia.
Qed.

Lemma constraints_update_task now ti de st p uid s :
  constraints s = true ->
  constraints (snd (update_task now ti de st p uid s)) = true.
Proof.
  rewrite !constraints_spec. cbn.
  intros (H1 & H2 & H3 & H4 & H5). repeat split; try assumption.
  - rewrite map_map.
    erewrite map_ext; [exact H1|].
    intros t. cbn. now destruct (id_and_owner p uid t).
  - intros t Ht. apply in_map_iff in Ht. destruct Ht as (t0 & <- & Ht0).
    specialize (H2 _ Ht0). now destruct (id_and_owner p uid t0).
Qed.

Lemma constraints_delete_task p uid s :
  constraints s = true ->
  constraints (snd (delete_task p uid s)) = true.
Proof.
  rewrite !constraints_spec. cbn.
  intros (H1 & H2 & H3 & H4 & H5). repeat split; try assumption.
  - now apply NoDup_map_filter.
  - intros t Ht. apply filter_In in Ht. now apply H2.
Qed.

Lemma email_is_existsb e l :
  existsb (email_is e) l = false -> ~ In e (map User.email l).
Proof.
  intros E Hin. apply in_map_iff in Hin. destruct Hin as (u & Hu & Hin).
  assert (existsb (email_is e) l = true) as C; [|congruence].
  apply existsb_exists. exists u. split; [assumption|].
  unfold email_is. rewrite Hu. apply String.eqb_refl.
Qed.

Lemma constraints_insert_user now e h s :
  constraints s = true ->
  constraints (snd (insert_user now e h s)) = true.
Proof.
  unfold insert_user. destruct (existsb (email_is e) (users s)) eqn:E;
    [trivial|].
  rewrite !constraints_spec. cbn.
  intros (H1 & H2 & H3 & H4 & H5). repeat split; try assumption.
  - rewrite map_app. cbn. apply NoDup_snoc_fresh; [assumption|].
    intros x Hx. apply in_map_iff in Hx. destruct Hx as (u & <- & Hu).
    now apply H4.
  - intros u Hu. apply in_app_or in Hu. destruct Hu as [Hu|[<-|[]]].
    + specialize (H4 _ Hu). lia.
    + cbn. lia.
  - rewrite map_app. cbn.
    apply NoDup_app; [assumption | repeat constructor; intros [] |].
    intros x Hx [<-|[]]. now apply (email_is_existsb _ _ E).
Qed.

(** ** What each route does to the store *)

Create HintDb route.

#[local] Hint Unfold reply after statements run task_operation
  post_auth_signup post_auth_login get_tasks post_tasks
  put_tasks_id delete_tasks_id get_health
  db_get_user db_run_insert_user db_all_tasks db_run_insert_task
  db_get_task db_run_update_task db_run_delete_task
  bind exec ret : route.

#[local] Arguments select_user : simpl never.
#[local] Arguments insert_user : simpl never.
#[local] Arguments select_tasks : simpl never.
#[local] Arguments insert_task : simpl never.
#[local] Arguments select_task : simpl never.
#[local] Arguments update_task : simpl never.
#[local] Arguments delete_task : simpl never.

Ltac eval_route := cbn -[Nat.ltb String.length truthy text js_or].

Ltac run_route := autounfold with route; eval_route.

(** Drop the libraries a goal does not mention, so that a proof depends
    on those of its statement only. *)
Ltac scoped :=
  repeat match goal with
         | v : ?T |- _ =>
             match T with
             | _ -> _ => match type of T with Set => clear v end
             end
         end.

Lemma after_get_tasks uid s : after (get_tasks uid) s = s.
Proof. reflexivity. Qed.

Lemma after_post_tasks now uid ti de s :
  after (post_tasks now uid ti de) s =
  if truthy ti
  then snd (insert_task now (text ti) (js_or de "") uid s)
  else s.
Proof. run_route. now destruct (truthy ti). Qed.

Lemma after_put_tasks_id now uid i ti de st s :
  after (put_tasks_id now uid i ti de st) s =
  if truthy ti
  then snd (update_task now (text ti) (js_or de "") (js_or st "pending")
                        (PText i) uid s)
  else s.
Proof.
  run_route. destruct (truthy ti); eval_route; [|reflexivity].
  destruct (update_task _ _ _ _ _ _ s) as [changes s']. eval_route.
  now destruct (changes =? 0).
Qed.

Lemma after_delete_tasks_id uid i s :
  after (delete_tasks_id uid i) s = snd (delete_task (PText i) uid s).
Proof.
  run_route. destruct (delete_task _ _ s) as [changes s']. eval_route.
  now destruct (changes =? 0).
Qed.

Lemma after_post_auth_signup now salt e p s :
  after (post_auth_signup now salt e p) s = s
  \/ after (post_auth_signup now salt e p) s =
     snd (insert_user now (text e) (bcrypt_hash salt (text p)) s).
Proof.
  run_route.
  destruct (negb (truthy e) || negb (truthy p)); [now left|].
  destruct (String.length (text p) <? 6)%nat; [now left|]. eval_route.
  destruct (select_user (text e) s); [now left|]. eval_route.
  right. destruct (insert_user _ _ _ s) as [[lastID|] s']; reflexivity.
Qed.

Lemma constraints_task_operation now uid op s :
  constraints s = true ->
  constraints (after (task_operation now uid op) s) = true.
Proof.
  intros H. destruct op as [|ti de|i ti de st|i]; cbn [task_operation].
  - now rewrite after_get_tasks.
  - rewrite after_post_tasks. destruct (truthy ti); [|assumption].
    now apply constraints_insert_task.
  - rewrite after_put_tasks_id. destruct (truthy ti); [|assumption].
    now apply constraints_update_task.
  - rewrite after_delete_tasks_id. now apply constraints_delete_task.
Qed.

Lemma reachable_constraints s : reachable s -> constraints s = true.
Proof.
  induction 1 as [|s now salt e p _ IH|s now uid op _ IH].
  - reflexivity.
  - destruct (after_post_auth_signup now salt e p s) as [-> | ->];
      [assumption | now apply constraints_insert_user].
  - now apply constraints_task_operation.
Qed.

(** A request that arrives over HTTP takes a reachable store to a
    reachable store: the middleware either answers itself or hands the
    verified account to the task operation. *)
Lemma handle_reachable now r s :
  reachable s -> reachable (after (handle now r) s).
Proof.
  intros H. destruct r as [salt e p|e p|a op|]; cbn [handle].
  - now apply reachable_signup.
  - replace (after (post_auth_login now e p) s) with s; [assumption|].
    run_route. destruct (negb (truthy e) || negb (truthy p)); [reflexivity|].
    eval_route. destruct (select_user (text e) s) as [u|]; [|reflexivity]. eval_route.
    now destruct (negb (bcrypt_compare (text p) (User.password u))).
  - unfold authenticateToken.
    destruct (negb (truthy _)); [exact H|].
    destruct (jwt_verify _ now) as [user|]; [|exact H].
    now apply reachable_task.
  - exact H.
Qed.

(** ** Updates and deletes that match no row *)

Lemma update_no_match now ti de st p uid s :
  (forall x, In x (tasks s) -> id_and_owner p uid x = false) ->
  update_task now ti de st p uid s = (0, s).
Proof.
  intros H. unfold update_task.
  rewrite (filter_none _ _ H), (map_untouched _ _ _ H), with_tasks_same.
  reflexivity.
Qed.

Lemma delete_no_match p uid s :
  (forall x, In x (tasks s) -> id_and_owner p uid x = false) ->
  delete_task p uid s = (0, s).
Proof.
  intros H. unfold delete_task.
  rewrite (filter_none _ _ H), filter_all, with_tasks_same; [reflexivity|].
  intros x Hx. now rewrite (H x Hx).
Qed.

Lemma put_no_match now uid i ti de st s :
  (forall x, In x (tasks s) -> id_and_owner (PText i) uid x = false) ->
  reply (put_tasks_id now uid i ti de st) s =
    (if truthy ti then fail 404 "Task not found or unauthorized"
     else fail 400 "Title is required")
  /\ after (put_tasks_id now uid i ti de st) s = s.
Proof.
  intros H. run_route. destruct (truthy ti); eval_route; [|now split].
  rewrite (update_no_match _ _ _ _ _ _ _ H). now split.
Qed.

Lemma delete_no_match_reply uid i s :
  (forall x, In x (tasks s) -> id_and_owner (PText i) uid x = false) ->
  reply (delete_tasks_id uid i) s = fail 404 "Task not found or unauthorized"
  /\ after (delete_tasks_id uid i) s = s.
Proof.
  intros H. run_route.
  rewrite (delete_no_match _ _ _ H). now split.
Qed.

(** A row of another account is never matched by [id = ? AND user_id = ?]. *)
Lemma other_owner_no_match p uid t s :
  constraints s = true -> In t (tasks s) -> Task.user_id t <> uid ->
  as_rowid p = Some (Task.id t) ->
  forall x, In x (tasks s) -> id_and_owner p uid x = false.
Proof.
  intros C Ht Hown Hp x Hx.
  destruct (id_and_owner p uid x) eqn:E; [exfalso|reflexivity].
  unfold id_and_owner, id_is, owned_by in E. rewrite Hp in E.
  apply andb_true_iff in E. destruct E as [Ei Eo].
  apply Z.eqb_eq in Ei, Eo.
  apply constraints_spec in C. destruct C as (Hnd & _).
  assert (x = t) by (eapply NoDup_key_inj; eauto). subst x. contradiction.
Qed.

Lemma unknown_id_no_match p uid s :
  (forall x, In x (tasks s) -> id_is p x = false) ->
  forall x, In x (tasks s) -> id_and_owner p uid x = false.
Proof.
  intros H x Hx. unfold id_and_owner. now rewrite (H x Hx).
Qed.

(** ** Properties of the routes *)

(** C9. For every owner, List answers 200 with exactly the rows of
    [tasks] whose [user_id] is that owner (each once), newest first by
    [created_at]; the sequence is empty when the owner has no task; the
    store is left as it was.  No branch of the route other than the one
    for a storage failure produces an error. *)
Theorem list_exactly_own_newest_first uid s :
  exists l,
    reply (get_tasks uid) s = mkResponse 200 (JTasks l)
    /\ Permutation l (filter (owned_by uid) (tasks s))
    /\ (forall t, In t l <-> In t (tasks s) /\ Task.user_id t = uid)
    /\ StronglySorted newer_or_same l
    /\ ((forall t, In t (tasks s) -> Task.user_id t <> uid) -> l = [])
    /\ after (get_tasks uid) s = s.
Proof.
  exists (select_tasks uid s). split; [reflexivity|].
  split; [apply order_by_perm|].
  split; [apply select_tasks_In|].
  split; [apply order_by_sorted|].
  split; [|reflexivity].
  intros Hnone. unfold select_tasks. rewrite filter_none; [reflexivity|].
  intros x Hx. apply Z.eqb_neq. now apply Hnone.
Qed.

(** C7. A signup whose password has fewer than 6 characters is answered
    400 with a validation message, sends no statement to the database
    and leaves the store, hence the [users] table, unchanged. *)
Theorem signup_short_password_rejected now salt email p s :
  (String.length p < 6)%nat ->
  code (reply (post_auth_signup now salt email (Some p)) s) = 400
  /\ (json (reply (post_auth_signup now salt email (Some p)) s)
        = JError "Email and password are required"
      \/ json (reply (post_auth_signup now salt email (Some p)) s)
        = JError "Password must be at least 6 characters")
  /\ statements (post_auth_signup now salt email (Some p)) s = []
  /\ after (post_auth_signup now salt email (Some p)) s = s.
Proof.
  scoped.
  intros Hlen. run_route.
  destruct (negb (truthy email) || negb (truthy (Some p))) eqn:E.
  - eval_route. tauto.
  - apply orb_false_iff in E. destruct E as [_ E].
    assert (text (Some p) = p) as ->.
    { cbn in *. now destruct (String.eqb p ""). }
    apply Nat.ltb_lt in Hlen. rewrite Hlen. eval_route. tauto.
Qed.

(** C8. With both fields present, a login for an email that has no
    account and a login for an email that has one but with a password
    that does not verify get the same response, character for character:
    status 400 and [{ error: 'Invalid credentials' }]. *)
Theorem login_failures_identical
        now1 now2 (e1 p1 e2 p2 : option string) (u : User.t) s1 s2 :
  truthy e1 = true -> truthy p1 = true ->
  truthy e2 = true -> truthy p2 = true ->
  select_user (text e1) s1 = None ->
  select_user (text e2) s2 = Some u ->
  bcrypt_compare (text p2) (User.password u) = false ->
  reply (post_auth_login now1 e1 p1) s1 = fail 400 "Invalid credentials"
  /\ reply (post_auth_login now2 e2 p2) s2 = fail 400 "Invalid credentials"
  /\ reply (post_auth_login now1 e1 p1) s1
     = reply (post_auth_login now2 e2 p2) s2.
Proof.
  intros He1 Hp1 He2 Hp2 Hnone Hsome Hbad.
  assert (reply (post_auth_login now1 e1 p1) s1
          = fail 400 "Invalid credentials") as R1.
  { run_route. rewrite He1, Hp1. eval_route. now rewrite Hnone. }
  assert (reply (post_auth_login now2 e2 p2) s2
          = fail 400 "Invalid credentials") as R2.
  { run_route. rewrite He2, Hp2. eval_route. rewrite Hsome. eval_route.
    now rewrite Hbad. }
  rewrite R1, R2. repeat split.
Qed.

(** C2. Let [t] be a task of account A in a store that meets the schema's
    constraints, and B another account.  B's Update against [t]'s id is
    answered 404 'Task not found or unauthorized' (400 'Title is
    required' when the title is empty, before the store is consulted),
    never 200; B's Delete is answered 404; both responses are those of
    the same call against an id no row has; both leave the store, hence
    [t], unchanged; and B's List holds no row with [t]'s id. *)
Theorem other_account_gets_not_found
        s (t : Task.t) (B : Z) now (taskId ghost : string)
        (title description status : option string) :
  constraints s = true ->
  In t (tasks s) -> Task.user_id t <> B ->
  numeric_of_text taskId = Some (Task.id t) ->
  (forall x, In x (tasks s) -> id_is (PText ghost) x = false) ->
  (truthy title = true ->
   reply (put_tasks_id now B taskId title description status) s
   = fail 404 "Task not found or unauthorized")
  /\ code (reply (put_tasks_id now B taskId title description status) s)
     <> 200
  /\ reply (put_tasks_id now B taskId title description status) s
     = reply (put_tasks_id now B ghost title description status) s
  /\ after (put_tasks_id now B taskId title description status) s = s
  /\ reply (delete_tasks_id B taskId) s
     = fail 404 "Task not found or unauthorized"
  /\ reply (delete_tasks_id B taskId) s = reply (delete_tasks_id B ghost) s
  /\ after (delete_tasks_id B taskId) s = s
  /\ In t (tasks (after (put_tasks_id now B taskId title description status) s))
  /\ In t (tasks (after (delete_tasks_id B taskId) s))
  /\ exists l, reply (get_tasks B) s = mkResponse 200 (JTasks l)
               /\ forall x, In x l -> Task.id x <> Task.id t.
Proof.
  intros C Ht Hown Hid Hghost.
  pose proof (other_owner_no_match (PText taskId) B t s C Ht Hown Hid) as Hno.
  pose proof (unknown_id_no_match (PText ghost) B s Hghost) as Hno'.
  destruct (put_no_match now B taskId title description status s Hno)
    as [Ru Au].
  destruct (put_no_match now B ghost title description status s Hno')
    as [Ru' _].
  destruct (delete_no_match_reply B taskId s Hno) as [Rd Ad].
  destruct (delete_no_match_reply B ghost s Hno') as [Rd' _].
  rewrite Ru, Ru', Au, Rd, Rd', Ad.
  split; [now intros ->|].
  split; [now destruct (truthy title)|].
  repeat (split; [reflexivity || assumption|]).
  exists (select_tasks B s). split; [reflexivity|].
  intros x Hx E. apply select_tasks_In in Hx. destruct Hx as [Hx Hb].
  apply constraints_spec in C. destruct C as (Hnd & _).
  assert (x = t) by (eapply NoDup_key_inj; eauto). subst x. contradiction.
Qed.

(** ** The fetch-back queries *)

Lemma find_app_skip {A} (f : A -> bool) (l r : list A) :
  (forall x, In x l -> f x = false) -> find f (l ++ r) = find f r.
Proof.
  induction l as [|x l' IH]; cbn; intros H; [reflexivity|].
  rewrite (H x (or_introl eq_refl)). apply IH. intros y Hy. apply H. now right.
Qed.

(** After the INSERT, [WHERE id = lastID] finds the row just written. *)
Lemma select_inserted now ti de uid s :
  constraints s = true ->
  select_task (PInt (fst (insert_task now ti de uid s)))
              (snd (insert_task now ti de uid s))
  = Some (new_task now ti de uid s).
Proof.
  intros C. apply constraints_spec in C. destruct C as (_ & Hle & _).
  unfold select_task, insert_task. cbn. rewrite find_app_skip.
  - cbn. unfold id_is. cbn. now rewrite Z.eqb_refl.
  - intros x Hx. unfold id_is. cbn. apply Z.eqb_neq.
    specialize (Hle x Hx). lia.
Qed.

Lemma id_is_set_fields p now ti de st t :
  id_is p (set_fields now ti de st t) = id_is p t.
Proof. reflexivity. Qed.

(** A successful Update: the one row it matched, the row it wrote, and
    the table around them. *)
Lemma put_success_shape now uid i ti de st s :
  constraints s = true ->
  code (reply (put_tasks_id now uid i ti de st) s) = 200 ->
  exists pre old post,
    let new := set_fields now (text ti) (js_or de "") (js_or st "pending")
                          old in
    truthy ti = true
    /\ tasks s = pre ++ old :: post
    /\ id_and_owner (PText i) uid old = true
    /\ tasks (after (put_tasks_id now uid i ti de st) s) = pre ++ new :: post
    /\ reply (put_tasks_id now uid i ti de st) s
       = mkResponse 200 (JTask (Some new))
    /\ statements (put_tasks_id now uid i ti de st) s
       = [mkEvent (UpdateTask (text ti) (js_or de "") (js_or st "pending")
                              (PText i) uid) [old];
          mkEvent (SelectTaskById (PText i)) [new]].
Proof.
  intros C Hcode. rewrite after_put_tasks_id. revert Hcode. run_route.
  destruct (truthy ti) eqn:Hti; eval_route; [|discriminate].
  destruct (filter (id_and_owner (PText i) uid) (tasks s)) as [|old rest] eqn:F.
  { unfold update_task. rewrite F. cbn. discriminate. }
  intros _.
  assert (In old (tasks s) /\ id_and_owner (PText i) uid old = true)
    as [Hold Hmatch].
  { apply filter_In. rewrite F. now left. }
  pose proof C as C'. apply constraints_spec in C'. destruct C' as (Hnd & _).
  destruct (NoDup_key_split Task.id (tasks s) old Hnd Hold)
    as (pre & post & Hsplit & Hpre & Hpost).
  assert (forall x, Task.id x <> Task.id old ->
                    id_and_owner (PText i) uid x = false) as Hother.
  { intros x Hx. unfold id_and_owner, id_is in *.
    destruct (as_rowid (PText i)) as [n|]; [|reflexivity].
    apply andb_true_iff in Hmatch. destruct Hmatch as [E _].
    apply Z.eqb_eq in E. apply andb_false_iff. left. apply Z.eqb_neq. lia. }
  assert (id_is (PText i) old = true) as Hid.
  { unfold id_and_owner in Hmatch. now apply andb_true_iff in Hmatch. }
  exists pre, old, post. cbn zeta.
  assert (filter (id_and_owner (PText i) uid) (tasks s) = [old]) as F1.
  { rewrite Hsplit, filter_app. cbn. rewrite Hmatch.
    rewrite !filter_none; [reflexivity| |];
      intros x Hx; apply Hother; auto. }
  assert (map (fun t => if id_and_owner (PText i) uid t
                        then set_fields now (text ti) (js_or de "")
                                        (js_or st "pending") t
                        else t) (tasks s)
          = pre ++ set_fields now (text ti) (js_or de "")
                              (js_or st "pending") old :: post) as M1.
  { rewrite Hsplit, map_app. cbn. rewrite Hmatch.
    rewrite !map_untouched; [reflexivity| |];
      intros x Hx; apply Hother; auto. }
  assert (rest = []) as -> by congruence.
  unfold update_task. rewrite F1, M1. cbn.
  assert (find (id_is (PText i))
               (pre ++ set_fields now (text ti) (js_or de "")
                                  (js_or st "pending") old :: post)
          = Some (set_fields now (text ti) (js_or de "")
                             (js_or st "pending") old)) as S1.
  { rewrite find_app_skip.
    - cbn [find]. now rewrite id_is_set_fields, Hid.
    - intros x Hx. specialize (Hpre x Hx).
      unfold id_is in *. destruct (as_rowid (PText i)) as [n|]; [|reflexivity].
      apply Z.eqb_eq in Hid. apply Z.eqb_neq. lia. }
  unfold select_task. cbn. rewrite S1.
  repeat split; try reflexivity; assumption.
Qed.

(** C5. In a store that meets the schema's constraints, a Create with a
    non-empty title is answered 201 with a row [t] that carries the
    request's title, the request's description (the empty string when
    it is omitted) and status 'pending'; the List of the same account
    right after it is answered 200 with a sequence that contains [t]
    itself, and [t] is the only row of that id in it. *)
Theorem create_then_list now uid (title description : option string) s :
  constraints s = true ->
  truthy title = true ->
  exists t l,
    reply (post_tasks now uid title description) s
    = mkResponse 201 (JTask (Some t))
    /\ Some (Task.title t) = title
    /\ Task.description t = js_or description ""
    /\ (description = None -> Task.description t = "")
    /\ Task.status t = "pending"
    /\ reply (get_tasks uid) (after (post_tasks now uid title description) s)
       = mkResponse 200 (JTasks l)
    /\ In t l
    /\ (forall x, In x l -> Task.id x = Task.id t -> x = t).
Proof.
  scoped.
  intros C Hti.
  set (ti := text title). set (de := js_or description "").
  exists (new_task now ti de uid s).
  exists (select_tasks uid (snd (insert_task now ti de uid s))).
  assert (after (post_tasks now uid title description) s
          = snd (insert_task now ti de uid s)) as Hafter.
  { rewrite after_post_tasks. now rewrite Hti. }
  rewrite Hafter.
  split.
  { run_route. rewrite Hti. eval_route. fold ti de.
    pose proof (select_inserted now ti de uid s C) as Hsel.
    destruct (insert_task now ti de uid s) as [lastID s'] eqn:E.
    cbn [fst snd] in Hsel. eval_route. now rewrite Hsel. }
  split.
  { cbn. subst ti. destruct title as [x|]; [|discriminate]. cbn in *.
    destruct (String.eqb x ""); [discriminate | reflexivity]. }
  split; [reflexivity|].
  split; [now intros ->|].
  split; [reflexivity|].
  split; [reflexivity|].
  assert (In (new_task now ti de uid s)
             (select_tasks uid (snd (insert_task now ti de uid s)))) as Hin.
  { apply select_tasks_In. split; [|reflexivity].
    cbn. apply in_or_app. right. now left. }
  split; [exact Hin|].
  intros x Hx E.
  pose proof (constraints_insert_task now ti de uid s C) as C'.
  apply constraints_spec in C'. destruct C' as (Hnd & _).
  apply select_tasks_In in Hx, Hin.
  eapply NoDup_key_inj; [exact Hnd | tauto | tauto | exact E].
Qed.

Lemma id_and_owner_true p uid t :
  id_and_owner p uid t = true ->
  as_rowid p = Some (Task.id t) /\ Task.user_id t = uid.
Proof.
  unfold id_and_owner, id_is, owned_by. intros H.
  apply andb_true_iff in H. destruct H as [Ei Eo].
  destruct (as_rowid p) as [n|]; [|discriminate].
  apply Z.eqb_eq in Ei, Eo. now subst.
Qed.

(** C4. In a store that meets the schema's constraints, a successful
    Update (answered 200) replaces the targeted row by a row whose
    description is the empty string when the request omits
    [description] and whose status is 'pending' when it omits [status],
    whatever the row held before; that row is the only one of its id in
    the table afterwards and is the one returned. *)
Theorem update_omitted_fields_reset
        now uid taskId (title description status : option string) s :
  constraints s = true ->
  code (reply (put_tasks_id now uid taskId title description status) s)
  = 200 ->
  exists old new,
    In old (tasks s)
    /\ numeric_of_text taskId = Some (Task.id old)
    /\ Task.user_id old = uid
    /\ In new (tasks (after (put_tasks_id now uid taskId title description
                                          status) s))
    /\ Task.id new = Task.id old
    /\ (forall x,
           In x (tasks (after (put_tasks_id now uid taskId title description
                                            status) s)) ->
           Task.id x = Task.id old -> x = new)
    /\ reply (put_tasks_id now uid taskId title description status) s
       = mkResponse 200 (JTask (Some new))
    /\ (description = None -> Task.description new = "")
    /\ (status = None -> Task.status new = "pending").
Proof.
  intros C Hcode.
  destruct (put_success_shape now uid taskId title description status s
                              C Hcode)
    as (pre & old & post & Hti & Hsplit & Hmatch & Hafter & Hreply & _).
  set (new := set_fields now (text title) (js_or description "")
                         (js_or status "pending") old) in *.
  assert (In new (tasks (after (put_tasks_id now uid taskId title description
                                             status) s))) as Hnew.
  { rewrite Hafter. apply in_or_app. right. now left. }
  destruct (id_and_owner_true _ _ _ Hmatch) as [Hid Hown].
  exists old, new.
  split; [rewrite Hsplit; apply in_or_app; right; now left|].
  split; [exact Hid|].
  split; [exact Hown|].
  split; [exact Hnew|].
  split; [reflexivity|].
  split.
  { intros x Hx E.
    pose proof (constraints_task_operation now uid
                  (OpUpdate taskId title description status) s C) as C'.
    cbn [task_operation] in C'.
    apply constraints_spec in C'. destruct C' as (Hnd & _).
    eapply NoDup_key_inj; [exact Hnd | exact Hx | exact Hnew | exact E]. }
  split; [exact Hreply|].
  split; now intros ->.
Qed.

(** C10. In a store that meets the schema's constraints, a successful
    Update (answered 200) changes one row of [tasks], the one with the
    requested id and owned by the caller, and nothing else: the rows
    before and after it, the [users] table and both id counters are as
    they were; within the row, [id], [user_id] and [created_at] keep
    their values, [title], [description] and [status] take the values of
    the request and [updated_at] the current time. *)
Theorem update_frame
        now uid taskId (title description status : option string) s :
  constraints s = true ->
  code (reply (put_tasks_id now uid taskId title description status) s)
  = 200 ->
  users (after (put_tasks_id now uid taskId title description status) s)
  = users s
  /\ users_seq (after (put_tasks_id now uid taskId title description status) s)
     = users_seq s
  /\ tasks_seq (after (put_tasks_id now uid taskId title description status) s)
     = tasks_seq s
  /\ exists pre old new post,
      tasks s = pre ++ old :: post
      /\ tasks (after (put_tasks_id now uid taskId title description status) s)
         = pre ++ new :: post
      /\ numeric_of_text taskId = Some (Task.id old)
      /\ Task.user_id old = uid
      /\ Task.id new = Task.id old
      /\ Task.user_id new = Task.user_id old
      /\ Task.created_at new = Task.created_at old
      /\ Some (Task.title new) = title
      /\ Task.description new = js_or description ""
      /\ Task.status new = js_or status "pending"
      /\ Task.updated_at new = now.
Proof.
  intros C Hcode.
  destruct (put_success_shape now uid taskId title description status s
                              C Hcode)
    as (pre & old & post & Hti & Hsplit & Hmatch & Hafter & Hreply & _).
  destruct (id_and_owner_true _ _ _ Hmatch) as [Hid Hown].
  rewrite after_put_tasks_id in *. rewrite Hti in *.
  repeat (split; [reflexivity|]).
  exists pre, old,
    (set_fields now (text title) (js_or description "")
                (js_or status "pending") old), post.
  repeat (split; [reflexivity || assumption|]).
  split; [|repeat split].
  cbn. destruct title as [x|]; [|discriminate]. cbn in *.
  destruct (String.eqb x ""); [discriminate | reflexivity].
Qed.

(** ** Signing up *)

Lemma select_user_existsb e s :
  select_user e s = None <-> existsb (email_is e) (users s) = false.
Proof.
  scoped.
  unfold select_user. induction (users s) as [|u r IH]; cbn; [tauto|].
  destruct (email_is e u); cbn; [|exact IH]. split; discriminate.
Qed.

Lemma select_user_In e s u :
  select_user e s = Some u -> In u (users s) /\ User.email u = e.
Proof.
  intros H. apply find_some in H. destruct H as [Hin E].
  split; [assumption|]. now apply String.eqb_eq in E.
Qed.

Lemma truthy_text (x : string) : x <> "" -> truthy (Some x) = true.
Proof.
  intros H. cbn. destruct (String.eqb x "") eqn:E; [|reflexivity].
  apply String.eqb_eq in E. contradiction.
Qed.

Lemma text_of_truthy (x : string) : text (Some x) = x.
Proof.
  cbn. destruct (String.eqb x "") eqn:E; [|reflexivity].
  apply String.eqb_eq in E. now subst.
Qed.

Lemma long_password_truthy (p : string) :
  (6 <= String.length p)%nat -> truthy (Some p) = true.
Proof.
  intros H. apply truthy_text. intros ->. cbn in H. lia.
Qed.

(** A signup that passes validation: a conflict when the email has a
    row, an INSERT otherwise. *)
Lemma signup_valid now salt e p s :
  e <> "" -> (6 <= String.length p)%nat ->
  match select_user e s with
  | Some _ =>
      reply (post_auth_signup now salt (Some e) (Some p)) s
      = fail 400 "User already exists"
      /\ after (post_auth_signup now salt (Some e) (Some p)) s = s
  | None =>
      after (post_auth_signup now salt (Some e) (Some p)) s
      = snd (insert_user now e (bcrypt_hash salt p) s)
      /\ users (after (post_auth_signup now salt (Some e) (Some p)) s)
         = users s ++ [User.mk (users_seq s + 1) e (bcrypt_hash salt p) now]
  end.
Proof.
  intros He Hp. run_route.
  rewrite (truthy_text e He), (long_password_truthy p Hp), !text_of_truthy.
  eval_route.
  destruct (String.length p <? 6)%nat eqn:L;
    [apply Nat.ltb_lt in L; lia|].
  eval_route.
  destruct (select_user e s) as [u|] eqn:S; eval_route; [now split|].
  apply select_user_existsb in S. unfold insert_user. rewrite S.
  eval_route. now split.
Qed.

(** A signup never answers anything but 400 for an email that has a
    row, and does not touch the store. *)
Lemma signup_known_email now salt e (password : option string) s u :
  e <> "" -> select_user e s = Some u ->
  code (reply (post_auth_signup now salt (Some e) password) s) = 400
  /\ after (post_auth_signup now salt (Some e) password) s = s
  /\ (forall p, password = Some p -> (6 <= String.length p)%nat ->
                reply (post_auth_signup now salt (Some e) password) s
                = fail 400 "User already exists").
Proof.
  intros He S. run_route. rewrite (truthy_text e He), text_of_truthy.
  eval_route.
  destruct (truthy password) eqn:T; eval_route.
  - destruct (String.length (text password) <? 6)%nat eqn:L; eval_route.
    + split; [reflexivity|]. split; [reflexivity|].
      intros p -> Hp. rewrite text_of_truthy in L.
      apply Nat.ltb_lt in L. lia.
    + rewrite S. eval_route. repeat split.
  - split; [reflexivity|]. split; [reflexivity|].
    intros p -> Hp. rewrite (long_password_truthy p Hp) in T. discriminate.
Qed.

Lemma one_row_per_email e u l :
  NoDup (map User.email l) -> In u l -> User.email u = e ->
  filter (email_is e) l = [u].
Proof.
  intros Hnd Hin E.
  destruct (NoDup_key_split User.email l u Hnd Hin)
    as (pre & post & -> & Hpre & Hpost).
  assert (forall x, User.email x <> User.email u -> email_is e x = false)
    as Hother.
  { intros x Hx. unfold email_is. apply String.eqb_neq. congruence. }
  rewrite filter_app. cbn. unfold email_is at 2. rewrite E, String.eqb_refl.
  rewrite !filter_none; [reflexivity| |]; intros x Hx; apply Hother; auto.
Qed.

(** C6. In a store that meets the schema's constraints, after a signup
    with a non-empty email and a password of at least 6 characters, a
    second signup with the same email is answered 400 whatever its
    password, with 'User already exists' when that password passes
    validation; it leaves the store as it was, and the [users] table
    then holds exactly one row with that email. *)
Theorem signup_twice_conflict
        now1 now2 salt1 salt2 (e p1 : string) (password2 : option string) s :
  constraints s = true ->
  e <> "" -> (6 <= String.length p1)%nat ->
  code (reply (post_auth_signup now2 salt2 (Some e) password2)
              (after (post_auth_signup now1 salt1 (Some e) (Some p1)) s))
  = 400
  /\ (forall p2, password2 = Some p2 -> (6 <= String.length p2)%nat ->
        reply (post_auth_signup now2 salt2 (Some e) password2)
              (after (post_auth_signup now1 salt1 (Some e) (Some p1)) s)
        = fail 400 "User already exists")
  /\ after (post_auth_signup now2 salt2 (Some e) password2)
           (after (post_auth_signup now1 salt1 (Some e) (Some p1)) s)
     = after (post_auth_signup now1 salt1 (Some e) (Some p1)) s
  /\ List.length
       (filter (email_is e)
          (users (after (post_auth_signup now2 salt2 (Some e) password2)
                    (after (post_auth_signup now1 salt1 (Some e) (Some p1))
                           s))))
     = 1%nat.
Proof.
  intros C He Hp1.
  set (s1 := after (post_auth_signup now1 salt1 (Some e) (Some p1)) s).
  assert (constraints s1 = true) as C1.
  { subst s1.
    destruct (after_post_auth_signup now1 salt1 (Some e) (Some p1) s)
      as [-> | ->]; [assumption | now apply constraints_insert_user]. }
  assert (exists u, In u (users s1) /\ User.email u = e) as (u & Hu & Eu).
  { pose proof (signup_valid now1 salt1 e p1 s He Hp1) as V. fold s1 in V.
    destruct (select_user e s) as [u|] eqn:S.
    - destruct V as [_ ->]. exists u. now apply select_user_In.
    - destruct V as [_ ->]. eexists. split.
      + apply in_or_app. right. now left.
      + reflexivity. }
  assert (exists u', select_user e s1 = Some u') as (u' & S1).
  { destruct (select_user e s1) as [u'|] eqn:S; [now exists u'|].
    apply select_user_existsb in S.
    exfalso. apply (email_is_existsb _ _ S). rewrite <- Eu. now apply in_map. }
  destruct (signup_known_email now2 salt2 e password2 s1 u' He S1)
    as (Hcode & Hafter & Hmsg).
  split; [exact Hcode|]. split; [exact Hmsg|]. split; [exact Hafter|].
  rewrite Hafter.
  apply constraints_spec in C1. destruct C1 as (_ & _ & _ & _ & Hnd).
  now rewrite (one_row_per_email e u (users s1) Hnd Hu Eu).
Qed.

(** ** The statements a task operation sends *)

Lemma filter_owned p uid l :
  forallb (owned_by uid) (filter (id_and_owner p uid) l) = true.
Proof.
  apply forallb_forall. intros x Hx. apply filter_In in Hx.
  destruct Hx as [_ E]. unfold id_and_owner in E.
  now apply andb_true_iff in E.
Qed.

Lemma select_tasks_owned uid s :
  forallb (owned_by uid) (select_tasks uid s) = true.
Proof.
  scoped.
  apply forallb_forall. intros x Hx. apply select_tasks_In in Hx.
  apply Z.eqb_eq. tauto.
Qed.

(** An Update that is not answered 200 sent nothing, or the UPDATE
    alone. *)
Lemma put_failure_statements now uid i ti de st s :
  code (reply (put_tasks_id now uid i ti de st) s) <> 200 ->
  statements (put_tasks_id now uid i ti de st) s = []
  \/ statements (put_tasks_id now uid i ti de st) s
     = [mkEvent (UpdateTask (text ti) (js_or de "") (js_or st "pending")
                            (PText i) uid)
                (filter (id_and_owner (PText i) uid) (tasks s))].
Proof.
  run_route. destruct (truthy ti); eval_route; [|now left].
  destruct (update_task now (text ti) (js_or de "") (js_or st "pending")
                        (PText i) uid s) as [changes s'].
  eval_route. destruct (changes =? 0); eval_route; [now right|].
  intros H. now contradiction H.
Qed.

(** C1 (as the code has it).  In a store that meets the schema's
    constraints, every statement that a task operation issued under
    account [O] sends either constrains [user_id] to [O] itself (the
    List query, the INSERT, and the UPDATE and DELETE, which filter by
    id and owner) or is the fetch-back query [WHERE id = ?] of Create
    and Update; and no statement, the fetch-back included, reads or
    writes a task row whose [user_id] differs from [O]. *)
Theorem task_statements_touch_only_own_rows now O op s :
  constraints s = true ->
  forall e, In e (statements (task_operation now O op) s) ->
    (owner_filtered O (sql e) = true \/ fetch_back (sql e) = true)
    /\ touches_only O e = true.
Proof.
  intros C e. destruct op as [|ti de|i ti de st|i]; cbn [task_operation].
  - run_route. intros [<-|[]]. cbn. rewrite Z.eqb_refl. split; [now left|].
    apply select_tasks_owned.
  - run_route. destruct (truthy ti); eval_route; [|intros []].
    pose proof (select_inserted now (text ti) (js_or de "") O s C) as Hsel.
    destruct (insert_task now (text ti) (js_or de "") O s) as [lastID s'].
    cbn [fst snd] in Hsel. eval_route. rewrite Hsel.
    intros [<-|[<-|[]]]; unfold touches_only, owned_by; cbn;
      rewrite ?Z.eqb_refl; split; auto.
  - destruct (Z.eq_dec
                (code (reply (put_tasks_id now O i ti de st) s)) 200)
      as [Hok|Hko].
    + destruct (put_success_shape now O i ti de st s C Hok)
        as (pre & old & post & _ & _ & Hmatch & _ & _ & ->).
      destruct (id_and_owner_true _ _ _ Hmatch) as [_ Hown].
      intros [<-|[<-|[]]]; unfold touches_only, owned_by; cbn;
        rewrite ?Hown, ?Z.eqb_refl; split; auto.
    + destruct (put_failure_statements now O i ti de st s Hko) as [-> | ->].
      * intros [].
      * intros [<-|[]]. cbn. rewrite Z.eqb_refl. split; [now left|].
        apply filter_owned.
  - run_route. destruct (delete_task (PText i) O s) as [changes s'].
    eval_route. destruct (changes =? 0); eval_route;
      intros [<-|[]]; cbn; rewrite Z.eqb_refl; (split; [now left|]);
      apply filter_owned.
Qed.

(** C3 (as the code has it).  Create writes status 'pending' and Update
    writes the request's status when it is non-empty, 'pending'
    otherwise, without comparing it with the enumeration.  So when every
    stored status is 'pending' or 'completed', it is still so after a
    List, a Create, a Delete, or an Update whose status field is absent,
    empty, 'pending' or 'completed'. *)
Theorem status_enum_preserved now uid op s :
  all_status_ok s = true ->
  carries_enum_status op = true ->
  all_status_ok (after (task_operation now uid op) s) = true.
Proof.
  unfold all_status_ok. rewrite !forallb_forall. intros H Hop t.
  destruct op as [|ti de|i ti de st|i]; cbn [task_operation].
  - rewrite after_get_tasks. apply H.
  - rewrite after_post_tasks. destruct (truthy ti); [|apply H].
    cbn. intros Ht. apply in_app_or in Ht.
    destruct Ht as [Ht|[<-|[]]]; [now apply H | reflexivity].
  - rewrite after_put_tasks_id. destruct (truthy ti); [|apply H].
    cbn -[js_or text]. intros Ht. apply in_map_iff in Ht.
    destruct Ht as (x & <- & Hx).
    destruct (id_and_owner (PText i) uid x); [|now apply H].
    cbn -[js_or text truthy] in *.
    destruct st as [v|]; [|reflexivity].
    cbn in *. destruct (String.eqb v ""); [reflexivity | exact Hop].
  - rewrite after_delete_tasks_id. cbn. intros Ht.
    apply filter_In in Ht. now apply H.
Qed.

(** ** The middleware *)

Lemma split_space_word (w : string) :
  has_no_space w = true -> split_space w = [w].
Proof.
  induction w as [|c r IH]; cbn; [reflexivity|].
  intros H. apply andb_true_iff in H. destruct H as [Hc Hr].
  apply negb_true_iff in Hc. rewrite Hc, (IH Hr). reflexivity.
Qed.

Lemma split_space_append (a r : string) :
  has_no_space a = true ->
  split_space (String.append a (String " "%char r)) = a :: split_space r.
Proof.
  induction a as [|c a' IH]; cbn; [reflexivity|].
  intros H. apply andb_true_iff in H. destruct H as [Hc Ha].
  apply negb_true_iff in Hc. rewrite Hc, (IH Ha). reflexivity.
Qed.

Lemma append_space_truthy (a r : string) :
  truthy (Some (String.append a (String " "%char r))) = true.
Proof. destruct a; reflexivity. Qed.

(** X1. A task route whose request has no [Authorization] header, or a
    header without a space in it, is answered 401 'Access token required';
    no statement is sent and the store is as it was. *)
Theorem task_route_without_token now (authorization : option string) op s :
  match authorization with
  | Some h => has_no_space h = true
  | None => True
  end ->
  reply (handle now (Tasks authorization op)) s
  = fail 401 "Access token required"
  /\ statements (handle now (Tasks authorization op)) s = []
  /\ after (handle now (Tasks authorization op)) s = s.
Proof.
  intros H. cbn [handle]. unfold authenticateToken.
  destruct authorization as [h|]; [|repeat split].
  destruct (truthy (Some h)) eqn:T.
  - rewrite (split_space_word h H). cbn. repeat split.
  - rewrite T. repeat split.
Qed.

Lemma authenticate_word_token now (scheme token : string)
      (next : claims -> M response) :
  has_no_space scheme = true ->
  has_no_space token = true ->
  token <> "" ->
  authenticateToken now (Some (String.append scheme (String " "%char token)))
                    next
  = match jwt_verify token now with
    | None => ret (fail 403 "Invalid or expired token")
    | Some user => next user
    end.
Proof.
  intros Hs Ht Hne. unfold authenticateToken.
  rewrite append_space_truthy, (split_space_append scheme token Hs),
    (split_space_word token Ht).
  cbn [nth_error]. rewrite (truthy_text token Hne), text_of_truthy.
  reflexivity.
Qed.

(** X2. A task route whose header is a word, a space and a token without
    spaces hands the token to [jwt.verify], whatever the first word is
    ('Bearer' is not checked).  When verification fails the answer is 403
    'Invalid or expired token', no statement is sent and the store is as
    it was; when it succeeds the route runs the task operation under the
    [userId] of the token's payload. *)
Theorem task_route_with_token now (scheme token : string) op s :
  has_no_space scheme = true ->
  has_no_space token = true ->
  token <> "" ->
  match jwt_verify token now with
  | None =>
      reply (handle now (Tasks (Some (String.append scheme
                                        (String " "%char token))) op)) s
      = fail 403 "Invalid or expired token"
      /\ statements (handle now (Tasks (Some (String.append scheme
                                        (String " "%char token))) op)) s = []
      /\ after (handle now (Tasks (Some (String.append scheme
                                        (String " "%char token))) op)) s = s
  | Some user =>
      run (handle now (Tasks (Some (String.append scheme
                                      (String " "%char token))) op)) s
      = run (task_operation now (userId user) op) s
  end.
Proof.
  intros Hs Ht Hne. cbn [handle].
  rewrite (authenticate_word_token now scheme token _ Hs Ht Hne).
  destruct (jwt_verify token now); [reflexivity | repeat split].
Qed.

(** ** Accounts *)


(** X4. With both fields present, a login is answered 200 exactly when
    the first row of [users] with the email has a password hash that
    [bcrypt.compare] accepts; the body then carries that row's id and
    email and a token signed for them.  Every other login with both
    fields present is answered 400 'Invalid credentials'.  A login never
    changes the store. *)
Theorem login_200_iff now (email password : option string) s :
  truthy email = true -> truthy password = true ->
  (code (reply (post_auth_login now email password) s) = 200
   <-> exists u, select_user (text email) s = Some u
                 /\ bcrypt_compare (text password) (User.password u) = true)
  /\ (forall u, select_user (text email) s = Some u ->
                bcrypt_compare (text password) (User.password u) = true ->
                reply (post_auth_login now email password) s
                = mkResponse 200
                    (JAuth "Login successful"
                           (jwt_sign (User.id u) (User.email u) now)
                           (User.id u) (User.email u)))
  /\ (code (reply (post_auth_login now email password) s) = 200
      \/ reply (post_auth_login now email password) s
         = fail 400 "Invalid credentials")
  /\ after (post_auth_login now email password) s = s.
Proof.
  scoped. intros He Hp. run_route. rewrite He, Hp. eval_route.
  destruct (select_user (text email) s) as [u|] eqn:S; eval_route.
  - destruct (bcrypt_compare (text password) (User.password u)) eqn:B;
      eval_route.
    + split; [split; [intros _; now exists u | reflexivity]|].
      split; [intros u' E _; now inversion E|]. split; [now left | reflexivity].
    + split.
      { split; [discriminate|]. intros (u' & E & B'). inversion E; subst.
        congruence. }
      split; [intros u' E B'; inversion E; subst; congruence|].
      split; [now right | reflexivity].
  - split; [split; [discriminate | intros (u' & E & _); discriminate]|].
    split; [discriminate|]. split; [now right | reflexivity].
Qed.

Lemma select_user_appended e s now h :
  select_user e s = None ->
  select_user e (snd (insert_user now e h s))
  = Some (User.mk (users_seq s + 1) e h now).
Proof.
  intros S. apply select_user_existsb in S. unfold insert_user. rewrite S.
  unfold select_user. cbn. rewrite find_app_skip.
  - cbn. unfold email_is. cbn. now rewrite String.eqb_refl.
  - intros x Hx. destruct (email_is e x) eqn:E; [|reflexivity].
    assert (existsb (email_is e) (users s) = true) as C; [|congruence].
    apply existsb_exists. now exists x.
Qed.

(** X5. Signup then login.  When [bcrypt.compare] accepts the password
    against the hash that [bcrypt.hash] made of it, a signup with a
    non-empty email that has no row and a password of at least 6
    characters is answered 201 with a new id, and a login with the same
    email and password right after it is answered 200 with that same id
    and email. *)
Theorem signup_then_login now1 now2 salt (e p : string) s :
  e <> "" -> (6 <= String.length p)%nat ->
  select_user e s = None ->
  bcrypt_compare p (bcrypt_hash salt p) = true ->
  exists id,
    reply (post_auth_signup now1 salt (Some e) (Some p)) s
    = mkResponse 201 (JAuth "User created successfully"
                            (jwt_sign id e now1) id e)
    /\ reply (post_auth_login now2 (Some e) (Some p))
             (after (post_auth_signup now1 salt (Some e) (Some p)) s)
       = mkResponse 200 (JAuth "Login successful" (jwt_sign id e now2) id e).
Proof.
  scoped. intros He Hp S B. exists (users_seq s + 1).
  pose proof (signup_valid now1 salt e p s He Hp) as V. rewrite S in V.
  destruct V as [Hafter _]. rewrite Hafter.
  split.
  - run_route.
    rewrite (truthy_text e He), (long_password_truthy p Hp), !text_of_truthy.
    eval_route.
    destruct (String.length p <? 6)%nat eqn:L;
      [apply Nat.ltb_lt in L; lia|].
    eval_route. rewrite S. eval_route.
    apply select_user_existsb in S. unfold insert_user. rewrite S.
    reflexivity.
  - run_route.
    rewrite (truthy_text e He), (long_password_truthy p Hp), !text_of_truthy.
    eval_route. rewrite (select_user_appended e s now1 _ S). eval_route.
    now rewrite B.
Qed.

(** ** What the task operations leave alone *)

Lemma filter_not_owned_map B (f : Task.t -> bool) (g : Task.t -> Task.t)
      (l : list Task.t) :
  (forall t, f t = true -> owned_by B t = true) ->
  (forall t, owned_by B (g t) = owned_by B t) ->
  filter (fun t => negb (owned_by B t)) (map (fun t => if f t then g t else t) l)
  = filter (fun t => negb (owned_by B t)) l.
Proof.
  intros Hf Hg. induction l as [|x r IH]; cbn; [reflexivity|].
  destruct (f x) eqn:E.
  - rewrite Hg, (Hf x E). cbn. exact IH.
  - destruct (owned_by B x); cbn; now rewrite IH.
Qed.

Lemma filter_not_owned_filter B (f : Task.t -> bool) (l : list Task.t) :
  (forall t, f t = true -> owned_by B t = true) ->
  filter (fun t => negb (owned_by B t)) (filter (fun t => negb (f t)) l)
  = filter (fun t => negb (owned_by B t)) l.
Proof.
  intros Hf. induction l as [|x r IH]; cbn; [reflexivity|].
  destruct (f x) eqn:E; cbn.
  - rewrite (Hf x E). cbn. exact IH.
  - destruct (owned_by B x); cbn; now rewrite IH.
Qed.

Lemma id_and_owner_owned p B t :
  id_and_owner p B t = true -> owned_by B t = true.
Proof. unfold id_and_owner. intros H. now apply andb_true_iff in H. Qed.

(** X6. Isolation.  Whatever task operation account [B] issues, with
    whatever arguments, the rows of [tasks] that belong to other accounts
    are afterwards exactly what they were, in the same order, and the
    [users] table and its id counter are untouched. *)
Theorem task_operation_isolation now B op s :
  filter (fun t => negb (owned_by B t))
         (tasks (after (task_operation now B op) s))
  = filter (fun t => negb (owned_by B t)) (tasks s)
  /\ users (after (task_operation now B op) s) = users s
  /\ users_seq (after (task_operation now B op) s) = users_seq s.
Proof.
  destruct op as [|ti de|i ti de st|i]; cbn [task_operation].
  - rewrite after_get_tasks. repeat split.
  - rewrite after_post_tasks. destruct (truthy ti); [|repeat split].
    unfold insert_task. cbn. rewrite filter_app. cbn.
    unfold owned_by at 2. cbn. rewrite Z.eqb_refl. cbn.
    rewrite app_nil_r. repeat split.
  - rewrite after_put_tasks_id. destruct (truthy ti); [|repeat split].
    unfold update_task. cbn -[text js_or].
    rewrite filter_not_owned_map; [repeat split | | reflexivity].
    intros t. apply id_and_owner_owned.
  - rewrite after_delete_tasks_id. unfold delete_task. cbn.
    rewrite filter_not_owned_filter; [repeat split|].
    intros t. apply id_and_owner_owned.
Qed.

(** ** Outcomes of Create, Update and Delete *)

Lemma filter_nonempty_iff {A} (f : A -> bool) (l : list A) :
  filter f l <> [] <-> exists x, In x l /\ f x = true.
Proof.
  split.
  - destruct (filter f l) as [|x r] eqn:F; [congruence|]. intros _.
    exists x. apply filter_In. rewrite F. now left.
  - intros (x & Hx) F. apply filter_In in Hx. rewrite F in Hx. contradiction.
Qed.

Lemma id_and_owner_iff p uid t :
  id_and_owner p uid t = true
  <-> as_rowid p = Some (Task.id t) /\ Task.user_id t = uid.
Proof.
  split; [apply id_and_owner_true|].
  intros [Hp Hu]. unfold id_and_owner, id_is, owned_by. rewrite Hp, Hu.
  now rewrite !Z.eqb_refl.
Qed.

Lemma changes_zero_iff (l : list Task.t) :
  (Z.of_nat (List.length l) =? 0) = true <-> l = [].
Proof.
  rewrite Z.eqb_eq. destruct l; cbn [List.length]; split;
    congruence || lia || reflexivity.
Qed.

(** X7. A Create or an Update whose title is absent or empty is answered
    400 'Title is required' before any statement is sent; the store is
    as it was. *)
Theorem title_required now uid taskId (title description status : option string) s :
  truthy title = false ->
  reply (post_tasks now uid title description) s = fail 400 "Title is required"
  /\ statements (post_tasks now uid title description) s = []
  /\ after (post_tasks now uid title description) s = s
  /\ reply (put_tasks_id now uid taskId title description status) s
     = fail 400 "Title is required"
  /\ statements (put_tasks_id now uid taskId title description status) s = []
  /\ after (put_tasks_id now uid taskId title description status) s = s.
Proof.
  intros H. run_route. rewrite H. repeat split.
Qed.

(** X8. An Update is answered 200 exactly when its title is non-empty
    and some row of [tasks] has the requested id and the caller as
    owner.  With a non-empty title and no such row (the id is unknown,
    belongs to another account, or its text does not convert to a
    number) the answer is 404 'Task not found or unauthorized' and the
    store is as it was. *)
Theorem update_200_iff now uid taskId (title description status : option string) s :
  (code (reply (put_tasks_id now uid taskId title description status) s) = 200
   <-> truthy title = true
       /\ exists t, In t (tasks s)
                    /\ numeric_of_text taskId = Some (Task.id t)
                    /\ Task.user_id t = uid)
  /\ (truthy title = true ->
      (forall t, In t (tasks s) ->
                 ~ (numeric_of_text taskId = Some (Task.id t)
                    /\ Task.user_id t = uid)) ->
      reply (put_tasks_id now uid taskId title description status) s
      = fail 404 "Task not found or unauthorized"
      /\ after (put_tasks_id now uid taskId title description status) s = s).
Proof.
  scoped.
  split.
  - run_route. destruct (truthy title); eval_route;
      [|split; [discriminate | intros [? _]; discriminate]].
    unfold update_task. eval_route.
    destruct (Z.of_nat (List.length
                (filter (id_and_owner (PText taskId) uid) (tasks s))) =? 0)
      eqn:E; eval_route.
    + apply changes_zero_iff in E. split; [discriminate|].
      intros [_ (t & Ht & Hid & Hu)]. exfalso.
      assert (In t (filter (id_and_owner (PText taskId) uid) (tasks s))) as C.
      { apply filter_In. split; [assumption|]. now apply id_and_owner_iff. }
      now rewrite E in C.
    + split; [|reflexivity]. intros _. split; [reflexivity|].
      assert (filter (id_and_owner (PText taskId) uid) (tasks s) <> []) as N.
      { intros C. apply changes_zero_iff in C. congruence. }
      apply filter_nonempty_iff in N. destruct N as (t & Ht & Hm).
      apply id_and_owner_iff in Hm. exists t. tauto.
  - intros Hti Hnone.
    assert (forall x, In x (tasks s) ->
                      id_and_owner (PText taskId) uid x = false) as Hno.
    { intros x Hx. destruct (id_and_owner (PText taskId) uid x) eqn:E;
        [|reflexivity].
      apply id_and_owner_iff in E. now elim (Hnone x Hx). }
    destruct (put_no_match now uid taskId title description status s Hno)
      as [R A].
    rewrite Hti in R. now split.
Qed.

(** X9. A Delete is answered 200 'Task deleted successfully' exactly
    when some row of [tasks] has the requested id and the caller as
    owner, and 404 'Task not found or unauthorized' otherwise; in the
    404 case the store is as it was. *)
Theorem delete_200_iff uid taskId s :
  (code (reply (delete_tasks_id uid taskId) s) = 200
   <-> exists t, In t (tasks s)
                 /\ numeric_of_text taskId = Some (Task.id t)
                 /\ Task.user_id t = uid)
  /\ (reply (delete_tasks_id uid taskId) s
      = mkResponse 200 (JMessage "Task deleted successfully")
      \/ reply (delete_tasks_id uid taskId) s
         = fail 404 "Task not found or unauthorized"
         /\ after (delete_tasks_id uid taskId) s = s).
Proof.
  scoped.
  destruct (filter (id_and_owner (PText taskId) uid) (tasks s))
    as [|old rest] eqn:F.
  - assert (forall x, In x (tasks s) ->
                      id_and_owner (PText taskId) uid x = false) as Hno.
    { intros x Hx. destruct (id_and_owner (PText taskId) uid x) eqn:E;
        [|reflexivity].
      assert (In x (filter (id_and_owner (PText taskId) uid) (tasks s))) as C
          by (apply filter_In; now split).
      now rewrite F in C. }
    destruct (delete_no_match_reply uid taskId s Hno) as [R A].
    rewrite R. split; [|right; now split].
    split; [discriminate|]. intros (t & Ht & Hm). exfalso.
    apply (proj2 (id_and_owner_iff (PText taskId) uid t)) in Hm.
    rewrite (Hno t Ht) in Hm. discriminate.
  - assert (In old (tasks s) /\ id_and_owner (PText taskId) uid old = true)
      as [Hold Hm] by (apply filter_In; rewrite F; now left).
    assert (reply (delete_tasks_id uid taskId) s
            = mkResponse 200 (JMessage "Task deleted successfully")) as R.
    { run_route. unfold delete_task. rewrite F. reflexivity. }
    rewrite R. split; [|now left]. split; [|reflexivity].
    intros _. exists old. apply id_and_owner_iff in Hm. tauto.
Qed.

(** A successful Delete: the one row it matched and the table around it. *)
Lemma delete_success_shape uid i s :
  constraints s = true ->
  code (reply (delete_tasks_id uid i) s) = 200 ->
  exists pre old post,
    tasks s = pre ++ old :: post
    /\ id_and_owner (PText i) uid old = true
    /\ (forall x, In x pre \/ In x post -> Task.id x <> Task.id old)
    /\ tasks (after (delete_tasks_id uid i) s) = pre ++ post.
Proof.
  scoped. intros C Hcode. rewrite after_delete_tasks_id. revert Hcode.
  run_route.
  destruct (filter (id_and_owner (PText i) uid) (tasks s)) as [|old rest] eqn:F.
  { unfold delete_task. rewrite F. cbn. discriminate. }
  intros _.
  assert (In old (tasks s) /\ id_and_owner (PText i) uid old = true)
    as [Hold Hmatch] by (apply filter_In; rewrite F; now left).
  apply constraints_spec in C. destruct C as (Hnd & _).
  destruct (NoDup_key_split Task.id (tasks s) old Hnd Hold)
    as (pre & post & Hsplit & Hpre & Hpost).
  assert (forall x, Task.id x <> Task.id old ->
                    id_and_owner (PText i) uid x = false) as Hother.
  { intros x Hx. destruct (id_and_owner (PText i) uid x) eqn:E; [|reflexivity].
    apply id_and_owner_true in E, Hmatch. destruct E as [E _], Hmatch as [M _].
    congruence. }
  exists pre, old, post. split; [exact Hsplit|]. split; [exact Hmatch|].
  split; [intros x [Hx|Hx]; auto|].
  unfold delete_task. cbn. rewrite Hsplit, filter_app. cbn. rewrite Hmatch.
  cbn. rewrite !filter_all; [reflexivity| |];
    intros x Hx; rewrite Hother; auto.
Qed.

(** X10. In a store that meets the schema's constraints, a successful
    Delete (answered 200) removes one row of [tasks], the one with the
    requested id and owned by the caller, and nothing else: the rows
    before and after it keep their values and order, and the [users]
    table and both id counters are as they were. *)
Theorem delete_frame uid taskId s :
  constraints s = true ->
  code (reply (delete_tasks_id uid taskId) s) = 200 ->
  users (after (delete_tasks_id uid taskId) s) = users s
  /\ users_seq (after (delete_tasks_id uid taskId) s) = users_seq s
  /\ tasks_seq (after (delete_tasks_id uid taskId) s) = tasks_seq s
  /\ exists pre old post,
      tasks s = pre ++ old :: post
      /\ tasks (after (delete_tasks_id uid taskId) s) = pre ++ post
      /\ numeric_of_text taskId = Some (Task.id old)
      /\ Task.user_id old = uid.
Proof.
  intros C Hcode.
  destruct (delete_success_shape uid taskId s C Hcode)
    as (pre & old & post & Hsplit & Hmatch & _ & Hafter).
  destruct (id_and_owner_true _ _ _ Hmatch) as [Hid Hown].
  split; [now rewrite after_delete_tasks_id|].
  split; [now rewrite after_delete_tasks_id|].
  split; [now rewrite after_delete_tasks_id|].
  exists pre, old, post. repeat split; assumption.
Qed.

(** X11. Deleting twice.  In a store that meets the schema's
    constraints, after a successful Delete no row has the deleted id, so a
    second Delete of the same id, by the same or by any other account, is
    answered 404 and changes nothing, and an Update of it is never
    answered 200. *)
Theorem delete_twice uid uid' now taskId
        (title description status : option string) s :
  constraints s = true ->
  code (reply (delete_tasks_id uid taskId) s) = 200 ->
  reply (delete_tasks_id uid' taskId) (after (delete_tasks_id uid taskId) s)
  = fail 404 "Task not found or unauthorized"
  /\ after (delete_tasks_id uid' taskId) (after (delete_tasks_id uid taskId) s)
     = after (delete_tasks_id uid taskId) s
  /\ code (reply (put_tasks_id now uid' taskId title description status)
                 (after (delete_tasks_id uid taskId) s)) <> 200
  /\ forall x, In x (tasks (after (delete_tasks_id uid taskId) s)) ->
               numeric_of_text taskId <> Some (Task.id x).
Proof.
  intros C Hcode.
  destruct (delete_success_shape uid taskId s C Hcode)
    as (pre & old & post & Hsplit & Hmatch & Hother & Hafter).
  destruct (id_and_owner_true _ _ _ Hmatch) as [Hid _]. cbn in Hid.
  assert (forall x, In x (tasks (after (delete_tasks_id uid taskId) s)) ->
                    numeric_of_text taskId <> Some (Task.id x)) as Hgone.
  { intros x Hx E. rewrite Hafter in Hx. apply in_app_or in Hx.
    apply (Hother x Hx). congruence. }
  assert (forall x, In x (tasks (after (delete_tasks_id uid taskId) s)) ->
                    id_and_owner (PText taskId) uid' x = false) as Hno.
  { intros x Hx. destruct (id_and_owner (PText taskId) uid' x) eqn:E;
      [|reflexivity].
    apply id_and_owner_true in E. destruct E as [E _].
    now elim (Hgone x Hx). }
  destruct (delete_no_match_reply uid' taskId _ Hno) as [R A].
  destruct (put_no_match now uid' taskId title description status _ Hno)
    as [R' _].
  split; [exact R|]. split; [exact A|]. split; [|exact Hgone].
  rewrite R'. now destruct (truthy title).
Qed.

(** X12. Ids are not handed out twice.  In a store that meets the
    schema's constraints, a Create with a non-empty title returns a row
    whose id is larger than the id of every row in the table; and when the
    Create follows a successful Delete, the new id is also larger than the
    id just deleted. *)
Theorem create_id_fresh now uid uid' taskId (title description : option string) s :
  constraints s = true ->
  truthy title = true ->
  (exists t,
      reply (post_tasks now uid title description) s
      = mkResponse 201 (JTask (Some t))
      /\ forall x, In x (tasks s) -> Task.id x < Task.id t)
  /\ (code (reply (delete_tasks_id uid' taskId) s) = 200 ->
      exists k t,
        numeric_of_text taskId = Some k
        /\ reply (post_tasks now uid title description)
                 (after (delete_tasks_id uid' taskId) s)
           = mkResponse 201 (JTask (Some t))
        /\ k < Task.id t).
Proof.
  scoped. intros C Hti.
  assert (forall s0, constraints s0 = true ->
            reply (post_tasks now uid title description) s0
            = mkResponse 201
                (JTask (Some (new_task now (text title) (js_or description "")
                                       uid s0)))) as Hpost.
  { intros s0 C0. run_route. rewrite Hti. eval_route.
    pose proof (select_inserted now (text title) (js_or description "")
                                uid s0 C0) as Hsel.
    destruct (insert_task now (text title) (js_or description "") uid s0)
      as [lastID s'].
    cbn [fst snd] in Hsel. eval_route. now rewrite Hsel. }
  pose proof C as C'. apply constraints_spec in C'.
  destruct C' as (_ & Hle & _).
  split.
  - eexists. split; [apply (Hpost s C)|].
    intros x Hx. specialize (Hle x Hx). cbn. lia.
  - intros Hcode.
    destruct (delete_success_shape uid' taskId s C Hcode)
      as (pre & old & post & Hsplit & Hmatch & _ & _).
    destruct (id_and_owner_true _ _ _ Hmatch) as [Hid _]. cbn in Hid.
    exists (Task.id old). eexists. split; [exact Hid|].
    split.
    + apply Hpost. rewrite after_delete_tasks_id.
      now apply constraints_delete_task.
    + rewrite after_delete_tasks_id. unfold delete_task. cbn.
      assert (In old (tasks s)) as Hold
          by (rewrite Hsplit; apply in_or_app; right; now left).
      specialize (Hle old Hold). lia.
Qed.

(** ** Invariants of the reachable stores *)

(** X13. In every reachable store the ids of [tasks] are pairwise
    distinct, the ids of [users] are pairwise distinct, no two accounts
    have the same email, and no id is above the AUTOINCREMENT counter of
    its table. *)
Theorem reachable_keys_unique s :
  reachable s ->
  NoDup (map Task.id (tasks s))
  /\ NoDup (map User.id (users s))
  /\ NoDup (map User.email (users s))
  /\ (forall t, In t (tasks s) -> Task.id t <= tasks_seq s)
  /\ (forall u, In u (users s) -> User.id u <= users_seq s).
Proof.
  intros R. apply reachable_constraints in R. apply constraints_spec in R.
  tauto.
Qed.

Lemma truthy_text_nonempty (v : option string) :
  truthy v = true -> text v <> "".
Proof.
  destruct v as [x|]; cbn; [|discriminate].
  destruct (String.eqb x "") eqn:E; [discriminate|].
  intros _. now apply String.eqb_neq.
Qed.

Lemma rows_well_formed_signup now salt e p s :
  rows_well_formed s ->
  rows_well_formed (after (post_auth_signup now salt e p) s).
Proof.
  scoped. intros W.
  assert (after (post_auth_signup now salt e p) s = s
          \/ truthy e = true /\ (6 <= String.length (text p))%nat
             /\ after (post_auth_signup now salt e p) s
                = mkStore (users s ++ [User.mk (users_seq s + 1) (text e)
                                         (bcrypt_hash salt (text p)) now])
                          (tasks s) (users_seq s + 1) (tasks_seq s)) as H.
  { run_route. destruct (truthy e) eqn:Te; eval_route; [|now left].
    destruct (truthy p); eval_route; [|now left].
    destruct (String.length (text p) <? 6)%nat eqn:L; eval_route; [now left|].
    apply Nat.ltb_ge in L.
    destruct (select_user (text e) s) eqn:S; eval_route; [now left|].
    apply select_user_existsb in S. unfold insert_user. rewrite S.
    eval_route. right. repeat split. exact L. }
  destruct H as [-> | (Te & Lp & ->)]; [exact W|].
  destruct W as (Hu & Ht & Htasks & Husers). unfold rows_well_formed. cbn.
  split; [lia|]. split; [lia|]. split; [exact Htasks|].
  intros u Hin. apply in_app_or in Hin. destruct Hin as [Hin|[<-|[]]].
  - now apply Husers.
  - cbn. split; [lia|]. split; [now apply truthy_text_nonempty|].
    now exists salt, (text p).
Qed.

Lemma rows_well_formed_task_operation now uid op s :
  rows_well_formed s ->
  rows_well_formed (after (task_operation now uid op) s).
Proof.
  scoped. intros W. pose proof W as (Hu & Ht & Htasks & Husers).
  destruct op as [|ti de|i ti de st|i]; cbn [task_operation].
  - rewrite after_get_tasks. exact W.
  - rewrite after_post_tasks. destruct (truthy ti) eqn:T;
      [|exact W].
    unfold insert_task, rows_well_formed. cbn -[text js_or].
    split; [exact Hu|]. split; [lia|]. split; [|exact Husers].
    intros t Hin. apply in_app_or in Hin. destruct Hin as [Hin|[<-|[]]].
    + now apply Htasks.
    + cbn -[text js_or]. split; [lia | now apply truthy_text_nonempty].
  - rewrite after_put_tasks_id. destruct (truthy ti) eqn:T;
      [|exact W].
    unfold update_task, rows_well_formed. cbn -[text js_or].
    split; [exact Hu|]. split; [exact Ht|]. split; [|exact Husers].
    intros t Hin. apply in_map_iff in Hin. destruct Hin as (x & <- & Hx).
    destruct (Htasks x Hx) as [Hid Hti].
    destruct (id_and_owner (PText i) uid x); [|now split].
    cbn -[text js_or]. split; [exact Hid | now apply truthy_text_nonempty].
  - rewrite after_delete_tasks_id. unfold delete_task, rows_well_formed. cbn.
    split; [exact Hu|]. split; [exact Ht|]. split; [|exact Husers].
    intros t Hin. apply filter_In in Hin. now apply Htasks.
Qed.

(** X14. In every reachable store every task has a positive id and a
    non-empty title, and every account has a positive id, a non-empty
    email and, as stored password, the [bcrypt.hash] of a password of at
    least 6 characters. *)
Theorem reachable_rows_well_formed s :
  reachable s ->
  (forall t, In t (tasks s) -> 0 < Task.id t /\ Task.title t <> "")
  /\ (forall u, In u (users s) ->
        0 < User.id u /\ User.email u <> ""
        /\ exists salt p, (6 <= String.length p)%nat
                          /\ User.password u = bcrypt_hash salt p).
Proof.
  intros R. assert (rows_well_formed s) as W; [|apply W].
  induction R as [|s now salt e p _ IH|s now uid op _ IH].
  - unfold rows_well_formed. cbn. repeat split; try lia; contradiction.
  - now apply rows_well_formed_signup.
  - now apply rows_well_formed_task_operation.
Qed.

(** ** The list before and after an operation *)

Lemma insert_desc_map (g : Task.t -> Task.t) t l :
  (forall x, Task.created_at (g x) = Task.created_at x) ->
  insert_desc (g t) (map g l) = map g (insert_desc t l).
Proof.
  intros Hg. induction l as [|x r IH]; cbn; [reflexivity|].
  rewrite !Hg. destruct (Task.created_at x <=? Task.created_at t); cbn;
    [reflexivity | now rewrite IH].
Qed.

Lemma order_by_map (g : Task.t -> Task.t) l :
  (forall x, Task.created_at (g x) = Task.created_at x) ->
  order_by_created_at_desc (map g l) = map g (order_by_created_at_desc l).
Proof.
  intros Hg. induction l as [|x r IH]; cbn; [reflexivity|].
  unfold order_by_created_at_desc in IH. rewrite IH.
  now apply insert_desc_map.
Qed.

Lemma filter_map_commute {A} (q : A -> bool) (h : A -> A) (l : list A) :
  (forall x, q (h x) = q x) -> filter q (map h l) = map h (filter q l).
Proof.
  intros Hq. induction l as [|x r IH]; cbn; [reflexivity|].
  rewrite Hq. destruct (q x); cbn; now rewrite IH.
Qed.

Lemma filter_filter_commute {A} (p q : A -> bool) (l : list A) :
  filter p (filter q l) = filter q (filter p l).
Proof.
  induction l as [|x r IH]; cbn; [reflexivity|].
  destruct (q x) eqn:Q, (p x) eqn:P; cbn; rewrite ?Q, ?P, IH; reflexivity.
Qed.

Lemma insert_desc_front t l :
  (forall x, In x l -> Task.created_at x <= Task.created_at t) ->
  insert_desc t l = t :: l.
Proof.
  destruct l as [|x r]; cbn; [reflexivity|]. intros H.
  destruct (Task.created_at x <=? Task.created_at t) eqn:E; [reflexivity|].
  apply Z.leb_gt in E. specialize (H x (or_introl eq_refl)). lia.
Qed.

Lemma filter_insert_desc (q : Task.t -> bool) t l :
  StronglySorted newer_or_same l ->
  filter q (insert_desc t l)
  = if q t then insert_desc t (filter q l) else filter q l.
Proof.
  induction 1 as [|x r Hr IH Hx]; cbn.
  - now destruct (q t).
  - destruct (Task.created_at x <=? Task.created_at t) eqn:E.
    + apply Z.leb_le in E. cbn. destruct (q t); [|reflexivity].
      rewrite insert_desc_front; [reflexivity|].
      intros y Hy.
      assert (In y (x :: r)) as Hin.
      { destruct (q x); [destruct Hy as [<-|Hy]; [now left|]|];
          right; now apply filter_In in Hy. }
      destruct Hin as [<-|Hin]; [exact E|].
      rewrite Forall_forall in Hx. specialize (Hx y Hin).
      unfold newer_or_same in Hx. lia.
    + cbn. destruct (q x); cbn; rewrite IH; destruct (q t); try reflexivity.
      cbn. now rewrite E.
Qed.

Lemma order_by_filter (q : Task.t -> bool) l :
  order_by_created_at_desc (filter q l)
  = filter q (order_by_created_at_desc l).
Proof.
  induction l as [|x r IH]; [reflexivity|].
  change (order_by_created_at_desc (x :: r))
    with (insert_desc x (order_by_created_at_desc r)).
  rewrite filter_insert_desc by apply order_by_sorted. rewrite <- IH.
  cbn [filter]. destruct (q x); reflexivity.
Qed.

Lemma order_by_newest (t : Task.t) l :
  (forall x, In x l -> Task.created_at x < Task.created_at t) ->
  order_by_created_at_desc (l ++ [t]) = t :: order_by_created_at_desc l.
Proof.
  intros H. induction l as [|x r IH]; [reflexivity|].
  change (order_by_created_at_desc ((x :: r) ++ [t]))
    with (insert_desc x (order_by_created_at_desc (r ++ [t]))).
  rewrite IH by (intros y Hy; apply H; now right). cbn.
  destruct (Task.created_at t <=? Task.created_at x) eqn:E; [|reflexivity].
  apply Z.leb_le in E. specialize (H x (or_introl eq_refl)). lia.
Qed.

Lemma select_tasks_NoDup uid s :
  NoDup (map Task.id (tasks s)) -> NoDup (map Task.id (select_tasks uid s)).
Proof.
  intros H. unfold select_tasks.
  apply (Permutation_NoDup
           (l := map Task.id (filter (owned_by uid) (tasks s)))).
  - apply Permutation_map, Permutation_sym, order_by_perm.
  - now apply NoDup_map_filter.
Qed.

Lemma reply_get_tasks uid s :
  reply (get_tasks uid) s = mkResponse 200 (JTasks (select_tasks uid s)).
Proof. reflexivity. Qed.

Lemma post_tasks_reply now uid (title description : option string) s :
  constraints s = true ->
  truthy title = true ->
  reply (post_tasks now uid title description) s
  = mkResponse 201
      (JTask (Some (new_task now (text title) (js_or description "") uid s))).
Proof.
  intros C Hti. run_route. rewrite Hti. eval_route.
  pose proof (select_inserted now (text title) (js_or description "")
                              uid s C) as Hsel.
  destruct (insert_task now (text title) (js_or description "") uid s)
    as [lastID s'].
  cbn [fst snd] in Hsel. eval_route. now rewrite Hsel.
Qed.

(** The List query after a Create at a later clock reading. *)
Lemma select_tasks_after_create now uid (title description : option string) s :
  truthy title = true ->
  (forall x, In x (tasks s) -> Task.user_id x = uid ->
             Task.created_at x < now) ->
  select_tasks uid (after (post_tasks now uid title description) s)
  = new_task now (text title) (js_or description "") uid s
    :: select_tasks uid s.
Proof.
  intros Hti Hclock. rewrite after_post_tasks, Hti.
  unfold select_tasks, insert_task. cbn -[text js_or].
  rewrite filter_app. cbn -[text js_or].
  unfold owned_by at 2. cbn -[text js_or]. rewrite Z.eqb_refl.
  apply order_by_newest. intros x Hx. apply filter_In in Hx.
  destruct Hx as [Hx Ho]. apply Z.eqb_eq in Ho.
  cbn -[text js_or]. now apply Hclock.
Qed.

(** The List query around a successful Update. *)
Lemma select_tasks_after_update
      now uid taskId (title description status : option string) s :
  constraints s = true ->
  code (reply (put_tasks_id now uid taskId title description status) s) = 200 ->
  exists pre old post,
    let new := set_fields now (text title) (js_or description "")
                          (js_or status "pending") old in
    select_tasks uid s = pre ++ old :: post
    /\ id_and_owner (PText taskId) uid old = true
    /\ (forall x, In x pre \/ In x post -> Task.id x <> Task.id old)
    /\ reply (put_tasks_id now uid taskId title description status) s
       = mkResponse 200 (JTask (Some new))
    /\ select_tasks uid
         (after (put_tasks_id now uid taskId title description status) s)
       = pre ++ new :: post.
Proof.
  intros C Hcode.
  destruct (put_success_shape now uid taskId title description status s
                              C Hcode)
    as (pre0 & old & post0 & Hti & Hsplit & Hmatch & _ & Hreply & _).
  set (g := set_fields now (text title) (js_or description "")
                       (js_or status "pending")) in *.
  set (g' := fun t => if id_and_owner (PText taskId) uid t then g t else t).
  destruct (id_and_owner_true _ _ _ Hmatch) as [Hid Hown].
  assert (In old (select_tasks uid s)) as Hin.
  { apply select_tasks_In. split; [|exact Hown].
    rewrite Hsplit. apply in_or_app. right. now left. }
  pose proof C as C'. apply constraints_spec in C'. destruct C' as (Hnd & _).
  destruct (NoDup_key_split Task.id (select_tasks uid s) old
              (select_tasks_NoDup uid s Hnd) Hin)
    as (pre & post & Hl & Hpre & Hpost).
  assert (forall x, Task.id x <> Task.id old ->
                    id_and_owner (PText taskId) uid x = false) as Hother.
  { intros x Hx. destruct (id_and_owner (PText taskId) uid x) eqn:E;
      [|reflexivity].
    apply id_and_owner_true in E. destruct E as [E _]. congruence. }
  exists pre, old, post. cbn zeta.
  split; [exact Hl|]. split; [exact Hmatch|].
  split; [intros x [Hx|Hx]; auto|]. split; [exact Hreply|].
  rewrite after_put_tasks_id, Hti.
  unfold select_tasks, update_task. cbn [snd tasks with_tasks].
  fold g. fold g'.
  rewrite (filter_map_commute (owned_by uid) g').
  2:{ intros x. unfold g'. now destruct (id_and_owner (PText taskId) uid x). }
  rewrite (order_by_map g').
  2:{ intros x. unfold g'. now destruct (id_and_owner (PText taskId) uid x). }
  fold (select_tasks uid s). rewrite Hl, map_app. cbn [map].
  unfold g' at 2. rewrite Hmatch.
  f_equal; [|f_equal]; apply map_untouched; intros x Hx; apply Hother; auto.
Qed.

(** The List query around a successful Delete. *)
Lemma select_tasks_after_delete uid taskId s :
  constraints s = true ->
  code (reply (delete_tasks_id uid taskId) s) = 200 ->
  exists pre old post,
    select_tasks uid s = pre ++ old :: post
    /\ id_and_owner (PText taskId) uid old = true
    /\ (forall x, In x pre \/ In x post -> Task.id x <> Task.id old)
    /\ select_tasks uid (after (delete_tasks_id uid taskId) s) = pre ++ post.
Proof.
  intros C Hcode.
  destruct (delete_success_shape uid taskId s C Hcode)
    as (pre0 & old & post0 & Hsplit & Hmatch & _ & _).
  destruct (id_and_owner_true _ _ _ Hmatch) as [Hid Hown].
  assert (In old (select_tasks uid s)) as Hin.
  { apply select_tasks_In. split; [|exact Hown].
    rewrite Hsplit. apply in_or_app. right. now left. }
  pose proof C as C'. apply constraints_spec in C'. destruct C' as (Hnd & _).
  destruct (NoDup_key_split Task.id (select_tasks uid s) old
              (select_tasks_NoDup uid s Hnd) Hin)
    as (pre & post & Hl & Hpre & Hpost).
  assert (forall x, Task.id x <> Task.id old ->
                    id_and_owner (PText taskId) uid x = false) as Hother.
  { intros x Hx. destruct (id_and_owner (PText taskId) uid x) eqn:E;
      [|reflexivity].
    apply id_and_owner_true in E. destruct E as [E _]. congruence. }
  exists pre, old, post.
  split; [exact Hl|]. split; [exact Hmatch|].
  split; [intros x [Hx|Hx]; auto|].
  rewrite after_delete_tasks_id.
  unfold select_tasks, delete_task. cbn [snd tasks with_tasks].
  set (q := fun t => negb (id_and_owner (PText taskId) uid t)).
  rewrite (filter_filter_commute (owned_by uid) q), order_by_filter.
  fold (select_tasks uid s).
  rewrite Hl, filter_app. cbn [filter]. unfold q at 2. rewrite Hmatch.
  cbn [negb]. f_equal; apply filter_all; intros x Hx; unfold q;
    rewrite Hother; auto.
Qed.

(** X15. In a store that meets the schema's constraints, when every task
    of the account was created before the current clock reading, a Create
    with a non-empty title puts the new task at the head of the account's
    list and leaves the rest of the list as it was. *)
Theorem list_after_create now uid (title description : option string) s :
  constraints s = true ->
  truthy title = true ->
  (forall x, In x (tasks s) -> Task.user_id x = uid ->
             Task.created_at x < now) ->
  exists t l,
    reply (get_tasks uid) s = mkResponse 200 (JTasks l)
    /\ reply (post_tasks now uid title description) s
       = mkResponse 201 (JTask (Some t))
    /\ reply (get_tasks uid) (after (post_tasks now uid title description) s)
       = mkResponse 200 (JTasks (t :: l)).
Proof.
  intros C Hti Hclock.
  exists (new_task now (text title) (js_or description "") uid s).
  exists (select_tasks uid s).
  split; [reflexivity|]. split; [now apply post_tasks_reply|].
  rewrite reply_get_tasks.
  now rewrite (select_tasks_after_create now uid title description s
                 Hti Hclock).
Qed.

(** X16. In a store that meets the schema's constraints, a successful
    Update (answered 200) leaves the updated task at its place in the
    account's list: the list after it is the list before it with the one
    row replaced by the row the Update returned. *)
Theorem list_after_update
        now uid taskId (title description status : option string) s :
  constraints s = true ->
  code (reply (put_tasks_id now uid taskId title description status) s) = 200 ->
  exists pre old new post,
    reply (get_tasks uid) s = mkResponse 200 (JTasks (pre ++ old :: post))
    /\ numeric_of_text taskId = Some (Task.id old)
    /\ reply (put_tasks_id now uid taskId title description status) s
       = mkResponse 200 (JTask (Some new))
    /\ reply (get_tasks uid)
             (after (put_tasks_id now uid taskId title description status) s)
       = mkResponse 200 (JTasks (pre ++ new :: post)).
Proof.
  intros C Hcode.
  destruct (select_tasks_after_update now uid taskId title description status
                                      s C Hcode)
    as (pre & old & post & Hl & Hmatch & _ & Hreply & Hl').
  destruct (id_and_owner_true _ _ _ Hmatch) as [Hid _].
  exists pre, old, (set_fields now (text title) (js_or description "")
                               (js_or status "pending") old), post.
  split; [now rewrite reply_get_tasks, Hl|]. split; [exact Hid|].
  split; [exact Hreply|]. now rewrite reply_get_tasks, Hl'.
Qed.

(** X17. In a store that meets the schema's constraints, a successful
    Delete (answered 200) takes the deleted task out of the account's
    list and leaves the other rows of the list in their order. *)
Theorem list_after_delete uid taskId s :
  constraints s = true ->
  code (reply (delete_tasks_id uid taskId) s) = 200 ->
  exists pre old post,
    reply (get_tasks uid) s = mkResponse 200 (JTasks (pre ++ old :: post))
    /\ numeric_of_text taskId = Some (Task.id old)
    /\ reply (get_tasks uid) (after (delete_tasks_id uid taskId) s)
       = mkResponse 200 (JTasks (pre ++ post)).
Proof.
  intros C Hcode.
  destruct (select_tasks_after_delete uid taskId s C Hcode)
    as (pre & old & post & Hl & Hmatch & _ & Hl').
  destruct (id_and_owner_true _ _ _ Hmatch) as [Hid _].
  exists pre, old, post.
  split; [now rewrite reply_get_tasks, Hl|]. split; [exact Hid|].
  now rewrite reply_get_tasks, Hl'.
Qed.

(** ** The browser side against the server *)

Lemma run_bind {A B} (m : M A) (k : A -> M B) s :
  run (bind m k) s = k (reply m s) (snd (run m s)).
Proof.
  unfold reply, run, bind. now destruct (m (mkWorld s [])).
Qed.

Lemma reply_bind_ret {A B} (m : M A) (f : A -> B) s :
  reply (bind m (fun a => ret (f a))) s = f (reply m s)
  /\ after (bind m (fun a => ret (f a))) s = after m s
  /\ statements (bind m (fun a => ret (f a))) s = statements m s.
Proof.
  unfold reply at 1, after at 1, statements at 1. rewrite run_bind.
  repeat split.
Qed.

Lemma if_ret {A} (b : bool) (x y : A) :
  (if b then ret x else ret y) = ret (if b then x else y).
Proof. now destruct b. Qed.

(** With a token the server accepts, a call of the browser is the task
    operation of the account. *)
Lemma call_tasks_signed_in now c uid op :
  signed_in now c uid -> call_tasks now c op = task_operation now uid op.
Proof.
  intros (t & user & Htok & Hne & Hsp & Hv & Hu).
  unfold call_tasks, getAuthHeaders. rewrite Htok. cbn [handle].
  change (String.append "Bearer " t)
    with (String.append "Bearer" (String " "%char t)).
  rewrite (authenticate_word_token now "Bearer" t _ eq_refl Hsp Hne), Hv.
  now rewrite Hu.
Qed.

(** X18. [fetchTasks] with a stored token that is a non-empty word and
    that [jwt.verify] rejects (expired or forged): the server answers
    403, so the handler shows 'Failed to fetch tasks' and stops the
    spinner, but it does not log the user out, since it logs out on 401
    only; the token stays in [localStorage] and the list on screen and
    the store are as they were. *)
Theorem fetchTasks_rejected_token now c s t :
  Client.token c = Some t ->
  t <> "" -> has_no_space t = true ->
  jwt_verify t now = None ->
  Client.error (reply (fetchTasks now c) s) = "Failed to fetch tasks"
  /\ Client.loading (reply (fetchTasks now c) s) = false
  /\ Client.token (reply (fetchTasks now c) s) = Some t
  /\ Client.isAuthenticated (reply (fetchTasks now c) s)
     = Client.isAuthenticated c
  /\ Client.tasks (reply (fetchTasks now c) s) = Client.tasks c
  /\ statements (fetchTasks now c) s = []
  /\ after (fetchTasks now c) s = s.
Proof.
  intros Htok Hne Hsp Hv.
  assert (call_tasks now (setLoading true c) OpList
          = ret (fail 403 "Invalid or expired token")) as E.
  { unfold call_tasks, getAuthHeaders. cbn [Client.token setLoading].
    rewrite Htok. cbn [handle].
    change (String.append "Bearer " t)
      with (String.append "Bearer" (String " "%char t)).
    now rewrite (authenticate_word_token now "Bearer" t _ eq_refl Hsp Hne), Hv. }
  unfold fetchTasks. rewrite E.
  unfold reply, after, statements, run, bind, ret. cbn.
  rewrite Htok. repeat split.
Qed.

(** X19. [fetchTasks] while signed in puts on screen exactly what the
    List query answers for the account, stops the spinner, and changes
    neither the error shown, nor the session, nor the store. *)
Theorem fetchTasks_signed_in now c uid s :
  signed_in now c uid ->
  in_sync uid (reply (fetchTasks now c) s) s
  /\ Client.loading (reply (fetchTasks now c) s) = false
  /\ Client.error (reply (fetchTasks now c) s) = Client.error c
  /\ Client.token (reply (fetchTasks now c) s) = Client.token c
  /\ after (fetchTasks now c) s = s.
Proof.
  intros Hin.
  assert (signed_in now (setLoading true c) uid) as Hin' by exact Hin.
  unfold fetchTasks. rewrite (call_tasks_signed_in _ _ _ OpList Hin').
  cbn [task_operation].
  unfold in_sync, reply, after, run, bind, get_tasks, db_all_tasks, exec, ret.
  cbn. repeat split.
Qed.

Lemma replace_task_split id (new old : Task.t) pre post :
  Task.id old = id ->
  (forall x, In x pre \/ In x post -> Task.id x <> id) ->
  replace_task id (Some new) (map Some (pre ++ old :: post))
  = map Some (pre ++ new :: post).
Proof.
  intros Hid Hother. unfold replace_task.
  rewrite !map_app, !map_map. cbn [map has_id]. rewrite Hid, Z.eqb_refl.
  f_equal; [|f_equal]; apply map_ext_in; intros x Hx; cbn;
    (destruct (Task.id x =? id) eqn:E; [|reflexivity]);
    apply Z.eqb_eq in E; exfalso; apply (Hother x); auto.
Qed.

Lemma remove_task_split id (old : Task.t) pre post :
  Task.id old = id ->
  (forall x, In x pre \/ In x post -> Task.id x <> id) ->
  remove_task id (map Some (pre ++ old :: post)) = map Some (pre ++ post).
Proof.
  intros Hid Hother. unfold remove_task.
  rewrite !map_app, filter_app. cbn [map filter has_id].
  rewrite Hid, Z.eqb_refl. cbn [negb].
  f_equal; apply filter_all; intros x Hx; apply in_map_iff in Hx;
    destruct Hx as (y & <- & Hy); cbn; apply negb_true_iff, Z.eqb_neq;
    apply Hother; auto.
Qed.

Lemma js_or_text (x d : string) : x <> "" -> js_or (Some x) d = x.
Proof.
  intros H. cbn. destruct (String.eqb x "") eqn:E; [|reflexivity].
  apply String.eqb_eq in E. contradiction.
Qed.

Lemma js_or_empty_default (x : string) : js_or (Some x) "" = x.
Proof. exact (text_of_truthy x). Qed.

Lemma newStatus_nonempty task : newStatus task <> "".
Proof. unfold newStatus. now destruct (String.eqb (Task.status task) _). Qed.

Lemma newStatus_ok task : status_ok (newStatus task) = true.
Proof. unfold newStatus. now destruct (String.eqb (Task.status task) _). Qed.

(** An Update with a title finds its row. *)
Lemma put_matched_200 now uid i (ti de st : option string) old s :
  truthy ti = true -> In old (tasks s) ->
  id_and_owner (PText i) uid old = true ->
  code (reply (put_tasks_id now uid i ti de st) s) = 200.
Proof.
  intros Hti Hold Hm. run_route. rewrite Hti. eval_route.
  unfold update_task. eval_route.
  destruct (filter (id_and_owner (PText i) uid) (tasks s)) as [|x r] eqn:F.
  - assert (In old (filter (id_and_owner (PText i) uid) (tasks s))) as C
        by (apply filter_In; now split).
    now rewrite F in C.
  - reflexivity.
Qed.

Lemma delete_matched_200 uid i old s :
  In old (tasks s) -> id_and_owner (PText i) uid old = true ->
  code (reply (delete_tasks_id uid i) s) = 200.
Proof.
  intros Hold Hm. run_route. unfold delete_task. eval_route.
  destruct (filter (id_and_owner (PText i) uid) (tasks s)) as [|x r] eqn:F.
  - assert (In old (filter (id_and_owner (PText i) uid) (tasks s))) as C
        by (apply filter_In; now split).
    now rewrite F in C.
  - reflexivity.
Qed.

(** A task on a screen that is in sync is a row of the account. *)
Lemma on_screen_row uid c s task :
  in_sync uid c s -> In (Some task) (Client.tasks c) ->
  In task (select_tasks uid s) /\ In task (tasks s) /\ Task.user_id task = uid.
Proof.
  intros Hs Hin. rewrite Hs in Hin. apply in_map_iff in Hin.
  destruct Hin as (x & E & Hx). inversion E; subst x.
  split; [exact Hx|]. now apply select_tasks_In.
Qed.

(** An Update sent by the browser for a task on screen: what the store
    and the screen become. *)
Lemma browser_update_shape now c s uid task (ti de st : string) :
  constraints s = true ->
  signed_in now c uid -> in_sync uid c s ->
  In (Some task) (Client.tasks c) ->
  ti <> "" -> st <> "" ->
  numeric_of_text (string_of_number (Task.id task)) = Some (Task.id task) ->
  let put := task_operation now uid
               (OpUpdate (string_of_number (Task.id task))
                         (Some ti) (Some de) (Some st)) in
  let new := set_fields now ti de st task in
  call_tasks now c (OpUpdate (string_of_number (Task.id task))
                             (Some ti) (Some de) (Some st)) = put
  /\ reply put s = mkResponse 200 (JTask (Some new))
  /\ In new (tasks (after put s))
  /\ (forall x, In x (tasks (after put s)) -> Task.id x = Task.id task ->
                x = new)
  /\ replace_task (Task.id task) (Some new) (Client.tasks c)
     = map Some (select_tasks uid (after put s)).
Proof.
  intros C Hin Hs Hscreen Hti Hst Hnum. cbn zeta. cbn [task_operation].
  destruct (on_screen_row uid c s task Hs Hscreen) as (Hl & Hrow & Hown).
  assert (id_and_owner (PText (string_of_number (Task.id task))) uid task
          = true) as Hm by (now apply id_and_owner_iff).
  assert (code (reply (put_tasks_id now uid (string_of_number (Task.id task))
                                    (Some ti) (Some de) (Some st)) s) = 200)
    as Hcode by (eapply put_matched_200; eauto using truthy_text).
  destruct (select_tasks_after_update now uid _ _ _ _ s C Hcode)
    as (pre & old & post & Hsel & Hm' & Hother & Hreply & Hsel').
  rewrite text_of_truthy, js_or_empty_default, (js_or_text st _ Hst)
    in Hreply, Hsel'.
  pose proof C as C'. apply constraints_spec in C'. destruct C' as (Hnd & _).
  assert (old = task) as ->.
  { apply (NoDup_key_inj Task.id (select_tasks uid s));
      [now apply select_tasks_NoDup | | exact Hl |].
    - rewrite Hsel. apply in_or_app. right. now left.
    - apply id_and_owner_true in Hm, Hm'. destruct Hm as [A _], Hm' as [B _].
      congruence. }
  assert (In (set_fields now ti de st task)
             (tasks (after (put_tasks_id now uid
                              (string_of_number (Task.id task))
                              (Some ti) (Some de) (Some st)) s))) as Hnew.
  { apply (proj1 (select_tasks_In uid _ _)). rewrite Hsel'.
    apply in_or_app. right. now left. }
  split; [exact (call_tasks_signed_in now c uid _ Hin)|].
  split; [exact Hreply|]. split; [exact Hnew|]. split.
  - intros x Hx E.
    pose proof (constraints_task_operation now uid
                  (OpUpdate (string_of_number (Task.id task))
                            (Some ti) (Some de) (Some st)) s C) as C2.
    cbn [task_operation] in C2. apply constraints_spec in C2.
    destruct C2 as (Hnd2 & _).
    eapply NoDup_key_inj; [exact Hnd2 | exact Hx | exact Hnew | exact E].
  - rewrite Hs, Hsel, Hsel'. now apply replace_task_split.
Qed.

Lemma signed_in_token now c c' uid :
  signed_in now c uid -> Client.token c' = Client.token c ->
  signed_in now c' uid.
Proof.
  intros (t & user & H) E. exists t, user. now rewrite E.
Qed.

(** One click on the status button of a task on screen. *)
Lemma toggle_shape now c s uid task :
  constraints s = true ->
  signed_in now c uid -> in_sync uid c s ->
  In (Some task) (Client.tasks c) ->
  Task.title task <> "" ->
  numeric_of_text (string_of_number (Task.id task)) = Some (Task.id task) ->
  let new := set_fields now (Task.title task) (Task.description task)
                        (newStatus task) task in
  In new (tasks (after (handleToggleStatus now task c) s))
  /\ (forall x, In x (tasks (after (handleToggleStatus now task c) s)) ->
                Task.id x = Task.id task -> x = new)
  /\ in_sync uid (reply (handleToggleStatus now task c) s)
             (after (handleToggleStatus now task c) s)
  /\ In (Some new) (Client.tasks (reply (handleToggleStatus now task c) s))
  /\ Client.error (reply (handleToggleStatus now task c) s) = Client.error c
  /\ Client.token (reply (handleToggleStatus now task c) s) = Client.token c
  /\ constraints (after (handleToggleStatus now task c) s) = true.
Proof.
  intros C Hin Hs Hscreen Hti Hnum. cbn zeta.
  destruct (browser_update_shape now c s uid task (Task.title task)
              (Task.description task) (newStatus task)
              C Hin Hs Hscreen Hti (newStatus_nonempty task) Hnum)
    as (Hcall & Hreply & Hnew & Huniq & Hscr).
  pose proof (constraints_task_operation now uid
                (OpUpdate (string_of_number (Task.id task))
                          (Some (Task.title task))
                          (Some (Task.description task))
                          (Some (newStatus task))) s C) as C2.
  unfold handleToggleStatus, reply, after. rewrite Hcall, !run_bind.
  rewrite Hreply. cbn -[task_operation newStatus string_of_number].
  fold (after (task_operation now uid
                 (OpUpdate (string_of_number (Task.id task))
                           (Some (Task.title task))
                           (Some (Task.description task))
                           (Some (newStatus task)))) s).
  split; [exact Hnew|]. split; [exact Huniq|].
  unfold in_sync, data_task. cbn [Client.tasks json].
  split; [exact Hscr|]. split; [|repeat split; exact C2].
  rewrite Hscr. apply in_map. apply select_tasks_In.
  split; [exact Hnew|]. cbn. now apply (on_screen_row uid c s task).
Qed.

(** X20. A click on the status button of a task on screen, while signed
    in, with the screen in sync and the store meeting the schema's
    constraints: the task's row gets the other status ('pending' when it
    was 'completed', 'completed' in every other case, so always a value
    of the enumeration) and the current time as [updated_at]; its id,
    title, description, owner and creation time are kept; the screen is
    in sync again and shows no error. *)
Theorem toggle_status_flips now c s uid task :
  constraints s = true ->
  signed_in now c uid -> in_sync uid c s ->
  In (Some task) (Client.tasks c) ->
  Task.title task <> "" ->
  numeric_of_text (string_of_number (Task.id task)) = Some (Task.id task) ->
  exists new,
    In new (tasks (after (handleToggleStatus now task c) s))
    /\ (forall x, In x (tasks (after (handleToggleStatus now task c) s)) ->
                  Task.id x = Task.id task -> x = new)
    /\ Task.id new = Task.id task
    /\ Task.title new = Task.title task
    /\ Task.description new = Task.description task
    /\ Task.user_id new = Task.user_id task
    /\ Task.created_at new = Task.created_at task
    /\ Task.updated_at new = now
    /\ Task.status new
       = (if String.eqb (Task.status task) "completed" then "pending"
          else "completed")
    /\ status_ok (Task.status new) = true
    /\ in_sync uid (reply (handleToggleStatus now task c) s)
               (after (handleToggleStatus now task c) s)
    /\ Client.error (reply (handleToggleStatus now task c) s) = Client.error c.
Proof.
  intros C Hin Hs Hscreen Hti Hnum.
  destruct (toggle_shape now c s uid task C Hin Hs Hscreen Hti Hnum)
    as (Hnew & Huniq & Hsync & _ & Herr & _).
  eexists. split; [exact Hnew|]. split; [exact Huniq|].
  repeat (split; [reflexivity|]).
  split; [apply newStatus_ok|]. split; assumption.
Qed.

(** X21. Two clicks on the status button.  Under the conditions of one
    click, with the token still accepted at the second click and a
    status of the enumeration to start from, the second click on the
    task as shown after the first brings the row back to its original
    status, title and description, with the time of the second click as
    [updated_at], and the screen is in sync. *)
Theorem toggle_twice_restores now1 now2 c s uid task :
  constraints s = true ->
  signed_in now1 c uid -> signed_in now2 c uid -> in_sync uid c s ->
  In (Some task) (Client.tasks c) ->
  Task.title task <> "" ->
  status_ok (Task.status task) = true ->
  numeric_of_text (string_of_number (Task.id task)) = Some (Task.id task) ->
  exists mid final,
    In (Some mid) (Client.tasks (reply (handleToggleStatus now1 task c) s))
    /\ Task.status mid <> Task.status task
    /\ In final
          (tasks (after (handleToggleStatus now2 mid
                           (reply (handleToggleStatus now1 task c) s))
                        (after (handleToggleStatus now1 task c) s)))
    /\ final = set_fields now2 (Task.title task) (Task.description task)
                          (Task.status task) task
    /\ in_sync uid
         (reply (handleToggleStatus now2 mid
                   (reply (handleToggleStatus now1 task c) s))
                (after (handleToggleStatus now1 task c) s))
         (after (handleToggleStatus now2 mid
                   (reply (handleToggleStatus now1 task c) s))
                (after (handleToggleStatus now1 task c) s)).
Proof.
  intros C Hin1 Hin2 Hs Hscreen Hti Hst Hnum.
  destruct (toggle_shape now1 c s uid task C Hin1 Hs Hscreen Hti Hnum)
    as (_ & _ & Hsync & Hscr & _ & Htok & C1).
  set (mid := set_fields now1 (Task.title task) (Task.description task)
                         (newStatus task) task) in *.
  destruct (toggle_shape now2 _ _ uid mid C1
              (signed_in_token now2 c _ uid Hin2 Htok) Hsync Hscr Hti Hnum)
    as (Hnew & _ & Hsync2 & _).
  exists mid, (set_fields now2 (Task.title mid) (Task.description mid)
                          (newStatus mid) mid).
  assert (newStatus mid = Task.status task /\ Task.status mid <> Task.status task)
    as [E N].
  { unfold mid, newStatus, status_ok in *. cbn.
    destruct (String.eqb (Task.status task) "completed") eqn:A.
    - apply String.eqb_eq in A. rewrite A. split; [reflexivity | discriminate].
    - cbn. rewrite orb_false_r in Hst. apply String.eqb_eq in Hst.
      rewrite Hst. split; [reflexivity | discriminate]. }
  split; [exact Hscr|]. split; [exact N|]. split; [exact Hnew|].
  split; [|exact Hsync2]. rewrite E. reflexivity.
Qed.

(** X22. Submitting the form for a new task, while signed in, with a
    non-empty title, the screen in sync, the store meeting the schema's
    constraints and every task of the account created before the current
    clock reading: the new task has the form's title and description and
    status 'pending' whatever status the form holds; it is put at the
    head of the list on screen, which is then what the server would list;
    the form is closed and no error is shown. *)
Theorem add_task_in_sync now c s uid (taskData : Form.t) :
  constraints s = true ->
  signed_in now c uid -> in_sync uid c s ->
  Form.title taskData <> "" ->
  (forall x, In x (tasks s) -> Task.user_id x = uid ->
             Task.created_at x < now) ->
  exists t,
    Client.tasks (reply (handleAddTask now taskData c) s)
    = Some t :: Client.tasks c
    /\ In t (tasks (after (handleAddTask now taskData c) s))
    /\ Task.title t = Form.title taskData
    /\ Task.description t = Form.description taskData
    /\ Task.status t = "pending"
    /\ Task.user_id t = uid
    /\ in_sync uid (reply (handleAddTask now taskData c) s)
               (after (handleAddTask now taskData c) s)
    /\ Client.showForm (reply (handleAddTask now taskData c) s) = false
    /\ Client.error (reply (handleAddTask now taskData c) s) = Client.error c.
Proof.
  intros C Hin Hs Hti Hclock.
  pose proof (truthy_text _ Hti) as Tt.
  pose proof (post_tasks_reply now uid (Some (Form.title taskData))
                (Some (Form.description taskData)) s C Tt) as Hreply.
  pose proof (select_tasks_after_create now uid (Some (Form.title taskData))
                (Some (Form.description taskData)) s Tt Hclock) as Hsel.
  rewrite text_of_truthy, js_or_empty_default in Hreply, Hsel.
  set (t := new_task now (Form.title taskData) (Form.description taskData)
                     uid s) in *.
  exists t.
  unfold handleAddTask, reply, after.
  rewrite (call_tasks_signed_in now c uid _ Hin), !run_bind.
  cbn [task_operation]. rewrite Hreply.
  cbn -[post_tasks]. 
  fold (after (post_tasks now uid (Some (Form.title taskData))
                          (Some (Form.description taskData))) s).
  split; [reflexivity|].
  split.
  { apply (proj1 (select_tasks_In uid _ t)). rewrite Hsel. now left. }
  repeat (split; [reflexivity|]).
  split; [|split; reflexivity].
  unfold in_sync. cbn [Client.tasks]. rewrite Hsel, Hs. reflexivity.
Qed.

(** X23. The delete button of a task on screen, while signed in, with
    the screen in sync and the store meeting the schema's constraints.
    When the confirmation is declined nothing is sent and nothing
    changes.  When it is accepted the row leaves the store, no element of
    the list on screen has its id any more, the screen is in sync and no
    error is shown. *)
Theorem delete_task_in_sync now c s uid task :
  constraints s = true ->
  signed_in now c uid -> in_sync uid c s ->
  In (Some task) (Client.tasks c) ->
  numeric_of_text (string_of_number (Task.id task)) = Some (Task.id task) ->
  (reply (handleDeleteTask now (Task.id task) false c) s = c
   /\ statements (handleDeleteTask now (Task.id task) false c) s = []
   /\ after (handleDeleteTask now (Task.id task) false c) s = s)
  /\ (forall x, In x (tasks (after (handleDeleteTask now (Task.id task) true c)
                                   s)) ->
                Task.id x <> Task.id task)
  /\ (forall x,
         In (Some x)
            (Client.tasks (reply (handleDeleteTask now (Task.id task) true c)
                                 s)) ->
         Task.id x <> Task.id task)
  /\ in_sync uid (reply (handleDeleteTask now (Task.id task) true c) s)
             (after (handleDeleteTask now (Task.id task) true c) s)
  /\ Client.error (reply (handleDeleteTask now (Task.id task) true c) s)
     = Client.error c.
Proof.
  intros C Hin Hs Hscreen Hnum.
  split; [repeat split|].
  destruct (on_screen_row uid c s task Hs Hscreen) as (Hl & Hrow & Hown).
  assert (id_and_owner (PText (string_of_number (Task.id task))) uid task
          = true) as Hm by (now apply id_and_owner_iff).
  pose proof (delete_matched_200 uid _ task s Hrow Hm) as Hcode.
  destruct (delete_success_shape uid _ s C Hcode)
    as (pre0 & old0 & post0 & Hsplit0 & Hm0 & Hother0 & Hafter0).
  destruct (select_tasks_after_delete uid _ s C Hcode)
    as (pre & old & post & Hsel & Hm' & Hother & Hsel').
  assert (forall a b, id_and_owner (PText (string_of_number (Task.id task)))
                                   uid a = true ->
                      id_and_owner (PText (string_of_number (Task.id task)))
                                   uid b = true ->
                      Task.id a = Task.id b) as Hsame.
  { intros a b A B. apply id_and_owner_true in A, B.
    destruct A as [A _], B as [B _]. congruence. }
  assert (reply (delete_tasks_id uid (string_of_number (Task.id task))) s
          = mkResponse 200 (JMessage "Task deleted successfully")) as Hreply.
  { revert Hcode. run_route.
    destruct (delete_task _ uid s) as [changes s']. eval_route.
    now destruct (changes =? 0). }
  unfold handleDeleteTask, reply, after.
  rewrite (call_tasks_signed_in now c uid _ Hin), !run_bind.
  cbn [task_operation]. rewrite Hreply. cbn -[delete_tasks_id].
  fold (after (delete_tasks_id uid (string_of_number (Task.id task))) s).
  assert (remove_task (Task.id task) (Client.tasks c)
          = map Some (select_tasks uid
                        (after (delete_tasks_id uid
                                  (string_of_number (Task.id task))) s)))
    as Hscr.
  { rewrite Hs, Hsel, Hsel'. apply remove_task_split.
    - now apply Hsame.
    - intros x Hx. rewrite <- (Hsame old task Hm' Hm). now apply Hother. }
  split.
  { intros x Hx. rewrite Hafter0 in Hx. apply in_app_or in Hx.
    rewrite (Hsame task old0 Hm Hm0). now apply Hother0. }
  split.
  { intros x Hx. rewrite Hscr, Hsel' in Hx. apply in_map_iff in Hx.
    destruct Hx as (y & E & Hy). inversion E; subst y.
    apply in_app_or in Hy. rewrite (Hsame task old Hm Hm'). now apply Hother. }
  split; [exact Hscr | reflexivity].
Qed.

(** X24. Opening the edit form on a task and submitting it unchanged.
    While signed in, with the screen in sync, the store meeting the
    schema's constraints and a task on screen that has a non-empty title
    and a non-empty status: the form is filled with the task's title,
    description and status, and submitting it rewrites the row with
    those same values, so only [updated_at] changes; the form is closed,
    no task is being edited and the screen is in sync. *)
Theorem edit_unchanged_keeps_fields now c s uid task :
  constraints s = true ->
  signed_in now c uid -> in_sync uid c s ->
  In (Some task) (Client.tasks c) ->
  Task.title task <> "" -> Task.status task <> "" ->
  numeric_of_text (string_of_number (Task.id task)) = Some (Task.id task) ->
  exists new,
    In new (tasks (after (handleUpdateTask now
                            (populate_form (Some task) empty_form)
                            (handleEditTask task c)) s))
    /\ new = Task.mk (Task.id task) (Task.title task) (Task.description task)
                     (Task.status task) (Task.user_id task)
                     (Task.created_at task) now
    /\ in_sync uid
         (reply (handleUpdateTask now (populate_form (Some task) empty_form)
                                  (handleEditTask task c)) s)
         (after (handleUpdateTask now (populate_form (Some task) empty_form)
                                  (handleEditTask task c)) s)
    /\ Client.showForm
         (reply (handleUpdateTask now (populate_form (Some task) empty_form)
                                  (handleEditTask task c)) s) = false
    /\ Client.editingTask
         (reply (handleUpdateTask now (populate_form (Some task) empty_form)
                                  (handleEditTask task c)) s) = None.
Proof.
  intros C Hin Hs Hscreen Hti Hst Hnum.
  assert (signed_in now (handleEditTask task c) uid) as Hin' by exact Hin.
  assert (in_sync uid (handleEditTask task c) s) as Hs' by exact Hs.
  destruct (browser_update_shape now (handleEditTask task c) s uid task
              (Task.title task) (Task.description task) (Task.status task)
              C Hin' Hs' Hscreen Hti Hst Hnum)
    as (Hcall & Hreply & Hnew & _ & Hscr).
  exists (set_fields now (Task.title task) (Task.description task)
                     (Task.status task) task).
  unfold handleUpdateTask, populate_form, reply, after.
  cbn [Client.editingTask handleEditTask setShowForm setEditingTask
       Form.title Form.description Form.status].
  rewrite js_or_empty_default, Hcall, !run_bind. rewrite Hreply.
  cbn -[task_operation string_of_number].
  fold (after (task_operation now uid
                 (OpUpdate (string_of_number (Task.id task))
                           (Some (Task.title task))
                           (Some (Task.description task))
                           (Some (Task.status task)))) s).
  split; [exact Hnew|]. split; [reflexivity|].
  split; [|split; reflexivity].
  unfold in_sync, data_task. cbn [Client.tasks json]. exact Hscr.
Qed.

(** X25. The login form with credentials the server does not accept
    (both fields filled in; the email has no account, or it has one and
    the password does not verify): the form shows the server's message
    'Invalid credentials'; nothing is stored in [localStorage], the user
    is not authenticated and the store is as it was. *)
Theorem login_form_invalid_credentials now salt c s (email password : string) :
  email <> "" -> password <> "" ->
  (select_user email s = None
   \/ exists u, select_user email s = Some u
                /\ bcrypt_compare password (User.password u) = false) ->
  Client.loginError (reply (handleSubmit now salt false email password c) s)
  = "Invalid credentials"
  /\ Client.token (reply (handleSubmit now salt false email password c) s)
     = Client.token c
  /\ Client.isAuthenticated
       (reply (handleSubmit now salt false email password c) s)
     = Client.isAuthenticated c
  /\ after (handleSubmit now salt false email password c) s = s.
Proof.
  scoped. intros He Hp Hbad.
  assert (run (post_auth_login now (Some email) (Some password)) s
          = (fail 400 "Invalid credentials",
             mkWorld s [mkEvent (SelectUserByEmail email) []])) as Hrun.
  { run_route. rewrite (truthy_text _ He), (truthy_text _ Hp), !text_of_truthy.
    eval_route. destruct Hbad as [-> | (u & -> & B)]; eval_route;
      [reflexivity | now rewrite B]. }
  unfold handleSubmit, reply, after. rewrite !run_bind. cbn [handle].
  unfold reply. rewrite Hrun. cbn. repeat split.
Qed.

(** X26. The sign-up form.  With a non-empty email that has no account
    and a password of at least 6 characters, a submission in sign-up
    mode creates the account and stores the token and [{ id, email }]
    the server returned; the form shows no error.  When that token is a
    non-empty word that [jwt.verify] accepts with the payload it was
    signed for, the browser is signed in as the new account: its task
    calls run under the new id. *)
Theorem signup_form_signs_in now now' salt c s (email password : string) :
  email <> "" -> (6 <= String.length password)%nat ->
  select_user email s = None ->
  jwt_sign (users_seq s + 1) email now <> "" ->
  has_no_space (jwt_sign (users_seq s + 1) email now) = true ->
  jwt_verify (jwt_sign (users_seq s + 1) email now) now'
  = Some (mkClaims (users_seq s + 1) email) ->
  Client.token (reply (handleSubmit now salt true email password c) s)
  = Some (jwt_sign (users_seq s + 1) email now)
  /\ Client.user (reply (handleSubmit now salt true email password c) s)
     = Some (users_seq s + 1, email)
  /\ Client.isAuthenticated
       (reply (handleSubmit now salt true email password c) s) = true
  /\ Client.loginError
       (reply (handleSubmit now salt true email password c) s) = ""
  /\ users (after (handleSubmit now salt true email password c) s)
     = users s ++ [User.mk (users_seq s + 1) email
                           (bcrypt_hash salt password) now]
  /\ signed_in now'
       (reply (handleSubmit now salt true email password c) s)
       (users_seq s + 1)
  /\ forall op,
       call_tasks now'
         (reply (handleSubmit now salt true email password c) s) op
       = task_operation now' (users_seq s + 1) op.
Proof.
  scoped. intros He Hp Hnone Hne Hsp Hv.
  assert (run (post_auth_signup now salt (Some email) (Some password)) s
          = (mkResponse 201
               (JAuth "User created successfully"
                      (jwt_sign (users_seq s + 1) email now)
                      (users_seq s + 1) email),
             mkWorld
               (mkStore (users s ++ [User.mk (users_seq s + 1) email
                                       (bcrypt_hash salt password) now])
                        (tasks s) (users_seq s + 1) (tasks_seq s))
               [mkEvent (SelectUserByEmail email) [];
                mkEvent (InsertUser email (bcrypt_hash salt password)) []]))
    as Hrun.
  { run_route.
    rewrite (truthy_text _ He), (long_password_truthy _ Hp), !text_of_truthy.
    eval_route.
    destruct (String.length password <? 6)%nat eqn:L;
      [apply Nat.ltb_lt in L; lia|].
    eval_route. rewrite Hnone. eval_route.
    apply select_user_existsb in Hnone. unfold insert_user. rewrite Hnone.
    reflexivity. }
  assert (signed_in now'
            (reply (handleSubmit now salt true email password c) s)
            (users_seq s + 1)) as Hin.
  { unfold handleSubmit, reply. rewrite !run_bind. cbn [handle].
    unfold reply. rewrite Hrun. cbn -[Z.add].
    eexists _, _. repeat split; eauto. }
  split; [|split; [|split; [|split; [|split; [|split]]]]];
    try exact Hin;
    try (intros op; now apply call_tasks_signed_in);
    unfold handleSubmit, reply, after; rewrite !run_bind; cbn [handle];
    unfold reply; rewrite Hrun; reflexivity.
Qed.

End Server.

(** ** The routes on concrete requests *)

(** A three-character password on the sample store. *)
Lemma signup_short_password_rejected_witness :
  (String.length "abc" < 6)%nat
  /\ code (reply (post_auth_signup sample_hash sample_sign 7 "s3"
                                   (Some "c@x.com") (Some "abc"))
                 sample_store) = 400
  /\ after (post_auth_signup sample_hash sample_sign 7 "s3"
                             (Some "c@x.com") (Some "abc"))
           sample_store = sample_store.
Proof.
  assert (String.length "abc" < 6)%nat as H by (cbn; lia).
  split; [exact H|].
  pose proof (signup_short_password_rejected sample_hash sample_sign 7 "s3"
                (Some "c@x.com") "abc" sample_store H) as (Hc & _ & _ & Ha).
  split; [exact Hc | exact Ha].
Defined.

(** An unknown email and a wrong password for a known one. *)
Lemma login_failures_identical_witness :
  reply (post_auth_login sample_compare sample_sign 20
                         (Some "nobody@x.com") (Some "secret1")) sample_store
  = reply (post_auth_login sample_compare sample_sign 21
                           (Some "a@x.com") (Some "secret2")) sample_store.
Proof.
  apply (login_failures_identical sample_compare sample_sign 20 21
           (Some "nobody@x.com") (Some "secret1")
           (Some "a@x.com") (Some "secret2")
           (User.mk 1 "a@x.com" (sample_hash "s1" "secret1") 5)
           sample_store sample_store); reflexivity.
Defined.

(** Account 2 against the task of account 1. *)
Lemma other_account_gets_not_found_witness :
  reply (put_tasks_id decimal_of_text 30 2 "1"
                      (Some "Mine now") None (Some "pending")) sample_store
  = fail 404 "Task not found or unauthorized"
  /\ reply (delete_tasks_id decimal_of_text 2 "1") sample_store
     = reply (delete_tasks_id decimal_of_text 2 "7") sample_store.
Proof.
  pose proof (other_account_gets_not_found decimal_of_text sample_store milk 2
                30 "1" "7" (Some "Mine now") None (Some "pending")) as W.
  assert (constraints sample_store = true) as H1 by reflexivity.
  assert (In milk (tasks sample_store)) as H2 by (left; reflexivity).
  assert (Task.user_id milk <> 2) as H3 by (cbn; lia).
  assert (decimal_of_text "1" = Some (Task.id milk)) as H4 by reflexivity.
  assert (forall x, In x (tasks sample_store) ->
                    id_is decimal_of_text (PText "7") x = false) as H5.
  { intros x [<-|[]]. reflexivity. }
  destruct (W H1 H2 H3 H4 H5) as (Hu & _ & _ & _ & _ & Hd & _).
  split; [apply Hu; reflexivity | exact Hd].
Defined.

(** Account 1 creates a second task without a description and lists. *)
Lemma create_then_list_witness :
  exists t l,
    reply (post_tasks decimal_of_text 40 1 (Some "Walk the dog") None)
          sample_store = mkResponse 201 (JTask (Some t))
    /\ reply (get_tasks 1)
             (after (post_tasks decimal_of_text 40 1 (Some "Walk the dog") None)
                    sample_store) = mkResponse 200 (JTasks l)
    /\ In t l
    /\ Task.description t = ""
    /\ Task.status t = "pending".
Proof.
  destruct (create_then_list decimal_of_text 40 1 (Some "Walk the dog") None
              sample_store eq_refl eq_refl)
    as (t & l & Hr & _ & _ & Hd & Hs & Hl & Hin & _).
  exists t, l. repeat split; try assumption. now apply Hd.
Defined.

(** A task stored as '2 litres' / 'completed', updated with a title only. *)
Lemma update_omitted_fields_reset_witness :
  Task.description milk = "2 litres" /\ Task.status milk = "completed"
  /\ exists new,
      reply (put_tasks_id decimal_of_text 50 1 "1" (Some "Buy milk") None None)
            sample_store = mkResponse 200 (JTask (Some new))
      /\ Task.description new = "" /\ Task.status new = "pending".
Proof.
  split; [reflexivity|]. split; [reflexivity|].
  destruct (update_omitted_fields_reset decimal_of_text 50 1 "1"
              (Some "Buy milk") None None sample_store eq_refl eq_refl)
    as (old & new & _ & _ & _ & _ & _ & _ & Hr & Hd & Hs).
  exists new. split; [exact Hr|]. split; [now apply Hd | now apply Hs].
Defined.

(** The [users] table across an Update of the sample task. *)
Lemma update_frame_witness :
  users (after (put_tasks_id decimal_of_text 50 1 "1"
                             (Some "Buy oat milk") None (Some "pending"))
               sample_store)
  = users sample_store.
Proof.
  apply (update_frame decimal_of_text 50 1 "1" (Some "Buy oat milk") None
           (Some "pending") sample_store eq_refl eq_refl).
Defined.

(** Two signups for c@x.com on the sample store. *)
Lemma signup_twice_conflict_witness :
  reply (post_auth_signup sample_hash sample_sign 61 "s4"
                          (Some "c@x.com") (Some "secret2"))
        (after (post_auth_signup sample_hash sample_sign 60 "s3"
                                 (Some "c@x.com") (Some "secret1"))
               sample_store)
  = fail 400 "User already exists".
Proof.
  assert ("c@x.com" <> "") as He by discriminate.
  assert (6 <= String.length "secret1")%nat as H1 by (cbn; lia).
  assert (6 <= String.length "secret2")%nat as H2 by (cbn; lia).
  destruct (signup_twice_conflict sample_hash sample_sign 60 61 "s3" "s4"
              "c@x.com" "secret1" (Some "secret2") sample_store
              eq_refl He H1) as (_ & Hmsg & _).
  exact (Hmsg "secret2" eq_refl H2).
Defined.

(** The fetch-back query of an Update by account 1 reads a row of
    account 1. *)
Lemma task_statements_touch_only_own_rows_witness :
  touches_only 1
    (mkEvent (SelectTaskById (PText "1"))
             [Task.mk 1 "Buy milk" "" "pending" 1 10 50]) = true.
Proof.
  apply (task_statements_touch_only_own_rows decimal_of_text 50 1
           (OpUpdate "1" (Some "Buy milk") None None) sample_store eq_refl).
  right. left. reflexivity.
Defined.

(** An Update that sets the sample task back to 'pending'. *)
Lemma status_enum_preserved_witness :
  all_status_ok
    (after (task_operation decimal_of_text 50 1
              (OpUpdate "1" (Some "Buy milk") None (Some "pending")))
           sample_store) = true.
Proof.
  apply (status_enum_preserved decimal_of_text 50 1
           (OpUpdate "1" (Some "Buy milk") None (Some "pending"))
           sample_store); reflexivity.
Defined.

(** The fetch-back queries of Update and of Create carry no owner filter:
    each is sent with [WHERE id = ?] alone. *)
Lemma fetch_back_without_owner_filter :
  map sql (statements
             (put_tasks_id decimal_of_text 50 1 "1"
                           (Some "Buy milk") None (Some "pending"))
             sample_store)
  = [UpdateTask "Buy milk" "" "pending" (PText "1") 1;
     SelectTaskById (PText "1")]
  /\ owner_filtered 1 (SelectTaskById (PText "1")) = false
  /\ map sql (statements
                (post_tasks decimal_of_text 40 1 (Some "Walk the dog") None)
                sample_store)
     = [InsertTask "Walk the dog" "" 1; SelectTaskById (PInt 2)]
  /\ owner_filtered 1 (SelectTaskById (PInt 2)) = false.
Proof. repeat split. Qed.

(** A status outside the enumeration is accepted and stored: after a
    signup, a Create and an Update with status 'archived', the store is
    reachable and its one task has status 'archived'. *)
Lemma status_outside_enum_reachable :
  reachable decimal_of_text sample_hash sample_sign
    (after (put_tasks_id decimal_of_text 12 1 "1"
                         (Some "Buy milk") None (Some "archived"))
       (after (post_tasks decimal_of_text 11 1 (Some "Buy milk") None)
          (after (post_auth_signup sample_hash sample_sign 10 "s1"
                                   (Some "a@x.com") (Some "secret1"))
                 empty_store)))
  /\ code (reply (put_tasks_id decimal_of_text 12 1 "1"
                               (Some "Buy milk") None (Some "archived"))
             (after (post_tasks decimal_of_text 11 1 (Some "Buy milk") None)
                (after (post_auth_signup sample_hash sample_sign 10 "s1"
                                         (Some "a@x.com") (Some "secret1"))
                       empty_store))) = 200
  /\ map Task.status
         (tasks
            (after (put_tasks_id decimal_of_text 12 1 "1"
                                 (Some "Buy milk") None (Some "archived"))
               (after (post_tasks decimal_of_text 11 1 (Some "Buy milk") None)
                  (after (post_auth_signup sample_hash sample_sign 10 "s1"
                                           (Some "a@x.com") (Some "secret1"))
                         empty_store))))
     = ["archived"]
  /\ status_ok "archived" = false.
Proof.
  split; [|repeat split].
  apply (reachable_task decimal_of_text sample_hash sample_sign _ 12 1
           (OpUpdate "1" (Some "Buy milk") None (Some "archived"))).
  apply (reachable_task decimal_of_text sample_hash sample_sign _ 11 1
           (OpCreate (Some "Buy milk") None)).
  apply reachable_signup. apply reachable_empty.
Qed.

(** ** The added properties on concrete requests *)

(** A header that is one word. *)
Lemma task_route_without_token_witness :
  reply (handle decimal_of_text sample_hash sample_compare sample_sign
                sample_verify 50 (Tasks (Some "Bearer") OpList))
        sample_store
  = fail 401 "Access token required".
Proof.
  apply (task_route_without_token decimal_of_text sample_hash sample_compare
           sample_sign sample_verify 50 (Some "Bearer") OpList sample_store).
  reflexivity.
Defined.

(** A header with another scheme word and the token of account 1. *)
Lemma task_route_with_token_witness :
  run (handle decimal_of_text sample_hash sample_compare sample_sign
              sample_verify 50 (Tasks (Some "Token token-of-a@x.com") OpList))
      sample_store
  = run (task_operation decimal_of_text 50 1 OpList) sample_store.
Proof.
  assert ("token-of-a@x.com" <> "") as Hne by discriminate.
  exact (task_route_with_token decimal_of_text sample_hash sample_compare
           sample_sign sample_verify 50 "Token" "token-of-a@x.com" OpList
           sample_store eq_refl eq_refl Hne).
Defined.

(** Account 1 logs in with its password. *)
Lemma login_200_iff_witness :
  after (post_auth_login sample_compare sample_sign 50
                         (Some "a@x.com") (Some "secret1")) sample_store
  = sample_store.
Proof.
  apply (login_200_iff sample_compare sample_sign 50
           (Some "a@x.com") (Some "secret1") sample_store); reflexivity.
Defined.

(** A third account signs up and logs in. *)
Lemma signup_then_login_witness :
  exists id,
    reply (post_auth_login sample_compare sample_sign 61
                           (Some "c@x.com") (Some "secret3"))
          (after (post_auth_signup sample_hash sample_sign 60 "s3"
                                   (Some "c@x.com") (Some "secret3"))
                 sample_store)
    = mkResponse 200 (JAuth "Login successful"
                            (sample_sign id "c@x.com" 61) id "c@x.com").
Proof.
  assert ("c@x.com" <> "") as He by discriminate.
  assert (6 <= String.length "secret3")%nat as Hp by (cbn; lia).
  destruct (signup_then_login sample_hash sample_compare sample_sign 60 61
              "s3" "c@x.com" "secret3" sample_store He Hp eq_refl eq_refl)
    as (id & _ & H).
  exists id. exact H.
Defined.

(** An Update without a title. *)
Lemma title_required_witness :
  reply (put_tasks_id decimal_of_text 50 1 "1" (Some "") None None)
        sample_store
  = fail 400 "Title is required".
Proof.
  apply (title_required decimal_of_text 50 1 "1" (Some "") None None
           sample_store eq_refl).
Defined.

(** Account 1 deletes its task. *)
Lemma delete_frame_witness :
  users (after (delete_tasks_id decimal_of_text 1 "1") sample_store)
  = users sample_store.
Proof.
  apply (delete_frame decimal_of_text 1 "1" sample_store eq_refl eq_refl).
Defined.

Lemma delete_twice_witness :
  reply (delete_tasks_id decimal_of_text 1 "1")
        (after (delete_tasks_id decimal_of_text 1 "1") sample_store)
  = fail 404 "Task not found or unauthorized".
Proof.
  apply (delete_twice decimal_of_text 1 1 50 "1" (Some "Buy milk") None None
           sample_store eq_refl eq_refl).
Defined.

(** Account 2 creates a task after account 1 deleted task 1. *)
Lemma create_id_fresh_witness :
  exists k t,
    decimal_of_text "1" = Some k
    /\ reply (post_tasks decimal_of_text 50 2 (Some "Read") None)
             (after (delete_tasks_id decimal_of_text 1 "1") sample_store)
       = mkResponse 201 (JTask (Some t))
    /\ k < Task.id t.
Proof.
  apply (create_id_fresh decimal_of_text 50 2 1 "1" (Some "Read") None
           sample_store eq_refl eq_refl).
  reflexivity.
Defined.

(** The store after a signup and a Create. *)
Lemma reachable_keys_unique_witness :
  NoDup (map User.email
           (users (after (post_tasks decimal_of_text 11 1 (Some "Buy milk") None)
                     (after (post_auth_signup sample_hash sample_sign 10 "s1"
                                              (Some "a@x.com") (Some "secret1"))
                            empty_store)))).
Proof.
  apply (reachable_keys_unique decimal_of_text sample_hash sample_sign).
  apply (reachable_task decimal_of_text sample_hash sample_sign _ 11 1
           (OpCreate (Some "Buy milk") None)).
  apply reachable_signup. apply reachable_empty.
Defined.

Lemma reachable_rows_well_formed_witness :
  0 < Task.id (Task.mk 1 "Buy milk" "" "pending" 1 11 11)
  /\ Task.title (Task.mk 1 "Buy milk" "" "pending" 1 11 11) <> "".
Proof.
  apply (reachable_rows_well_formed decimal_of_text sample_hash sample_sign
           (after (post_tasks decimal_of_text 11 1 (Some "Buy milk") None)
              (after (post_auth_signup sample_hash sample_sign 10 "s1"
                                       (Some "a@x.com") (Some "secret1"))
                     empty_store))).
  - apply (reachable_task decimal_of_text sample_hash sample_sign _ 11 1
             (OpCreate (Some "Buy milk") None)).
    apply reachable_signup. apply reachable_empty.
  - left. reflexivity.
Defined.

(** Account 1 creates a second task at a later time. *)
Lemma list_after_create_witness :
  exists t l,
    reply (get_tasks 1) sample_store = mkResponse 200 (JTasks l)
    /\ reply (post_tasks decimal_of_text 40 1 (Some "Walk the dog") None)
             sample_store = mkResponse 201 (JTask (Some t))
    /\ reply (get_tasks 1)
             (after (post_tasks decimal_of_text 40 1 (Some "Walk the dog") None)
                    sample_store)
       = mkResponse 200 (JTasks (t :: l)).
Proof.
  apply (list_after_create decimal_of_text 40 1 (Some "Walk the dog") None
           sample_store eq_refl eq_refl).
  intros x [<-|[]] _. cbn. lia.
Defined.

Lemma list_after_update_witness :
  exists pre old new post,
    reply (get_tasks 1) sample_store
    = mkResponse 200 (JTasks (pre ++ old :: post))
    /\ decimal_of_text "1" = Some (Task.id old)
    /\ reply (put_tasks_id decimal_of_text 50 1 "1" (Some "Buy oat milk")
                           None (Some "pending")) sample_store
       = mkResponse 200 (JTask (Some new))
    /\ reply (get_tasks 1)
             (after (put_tasks_id decimal_of_text 50 1 "1"
                                  (Some "Buy oat milk") None (Some "pending"))
                    sample_store)
       = mkResponse 200 (JTasks (pre ++ new :: post)).
Proof.
  apply (list_after_update decimal_of_text 50 1 "1" (Some "Buy oat milk")
           None (Some "pending") sample_store eq_refl eq_refl).
Defined.

Lemma list_after_delete_witness :
  exists pre old post,
    reply (get_tasks 1) sample_store
    = mkResponse 200 (JTasks (pre ++ old :: post))
    /\ decimal_of_text "1" = Some (Task.id old)
    /\ reply (get_tasks 1)
             (after (delete_tasks_id decimal_of_text 1 "1") sample_store)
       = mkResponse 200 (JTasks (pre ++ post)).
Proof.
  apply (list_after_delete decimal_of_text 1 "1" sample_store
           eq_refl eq_refl).
Defined.

(** The browser that holds a token the server rejects. *)
Lemma fetchTasks_rejected_token_witness :
  Client.error
    (reply (fetchTasks decimal_of_text sample_hash sample_compare sample_sign
                       sample_verify 50 stale_client) sample_store)
  = "Failed to fetch tasks"
  /\ Client.token
       (reply (fetchTasks decimal_of_text sample_hash sample_compare
                          sample_sign sample_verify 50 stale_client)
              sample_store)
     = Some "expired".
Proof.
  assert ("expired" <> "") as Hne by discriminate.
  destruct (fetchTasks_rejected_token decimal_of_text sample_hash
              sample_compare sample_sign sample_verify 50 stale_client
              sample_store "expired" eq_refl Hne eq_refl eq_refl)
    as (He & _ & Ht & _).
  split; [exact He | exact Ht].
Defined.

(** Account 1 in its browser. *)
Lemma fetchTasks_signed_in_witness :
  in_sync 1
    (reply (fetchTasks decimal_of_text sample_hash sample_compare sample_sign
                       sample_verify 50 sample_client) sample_store)
    sample_store.
Proof.
  assert (signed_in sample_verify 50 sample_client 1) as Hin.
  { exists "token-of-a@x.com", (mkClaims 1 "a@x.com").
    repeat split. discriminate. }
  apply (fetchTasks_signed_in decimal_of_text sample_hash sample_compare
           sample_sign sample_verify 50 sample_client 1 sample_store Hin).
Defined.

Lemma toggle_status_flips_witness :
  exists new,
    In new (tasks (after (handleToggleStatus decimal_of_text sample_hash
                            sample_compare sample_sign sample_verify 50 milk
                            sample_client) sample_store))
    /\ Task.status new = "pending".
Proof.
  assert (signed_in sample_verify 50 sample_client 1) as Hin.
  { exists "token-of-a@x.com", (mkClaims 1 "a@x.com").
    repeat split. discriminate. }
  assert (Task.title milk <> "") as Hti by discriminate.
  assert (In (Some milk) (Client.tasks sample_client)) as Hs
      by (left; reflexivity).
  destruct (toggle_status_flips decimal_of_text sample_hash sample_compare
              sample_sign sample_verify 50 sample_client sample_store 1 milk
              eq_refl Hin eq_refl Hs Hti eq_refl)
    as (new & H1 & _ & _ & _ & _ & _ & _ & _ & Hst & _).
  exists new. split; [exact H1 | exact Hst].
Defined.

Lemma toggle_twice_restores_witness :
  exists mid final,
    Task.status mid <> Task.status milk
    /\ final = set_fields 51 "Buy milk" "2 litres" "completed" milk
    /\ In final
          (tasks
             (after (handleToggleStatus decimal_of_text sample_hash
                       sample_compare sample_sign sample_verify 51 mid
                       (reply (handleToggleStatus decimal_of_text sample_hash
                                 sample_compare sample_sign sample_verify 50
                                 milk sample_client) sample_store))
                    (after (handleToggleStatus decimal_of_text sample_hash
                              sample_compare sample_sign sample_verify 50
                              milk sample_client) sample_store))).
Proof.
  assert (signed_in sample_verify 50 sample_client 1) as Hin1.
  { exists "token-of-a@x.com", (mkClaims 1 "a@x.com").
    repeat split. discriminate. }
  assert (signed_in sample_verify 51 sample_client 1) as Hin2.
  { exists "token-of-a@x.com", (mkClaims 1 "a@x.com").
    repeat split. discriminate. }
  assert (Task.title milk <> "") as Hti by discriminate.
  assert (In (Some milk) (Client.tasks sample_client)) as Hs
      by (left; reflexivity).
  destruct (toggle_twice_restores decimal_of_text sample_hash sample_compare
              sample_sign sample_verify 50 51 sample_client sample_store 1
              milk eq_refl Hin1 Hin2 eq_refl Hs Hti eq_refl eq_refl)
    as (mid & final & _ & Hn & Hf & He & _).
  exists mid, final. split; [exact Hn|]. split; [exact He | exact Hf].
Defined.

Lemma add_task_in_sync_witness :
  in_sync 1
    (reply (handleAddTask decimal_of_text sample_hash sample_compare
              sample_sign sample_verify 40
              (Form.mk "Walk the dog" "" "completed") sample_client)
           sample_store)
    (after (handleAddTask decimal_of_text sample_hash sample_compare
              sample_sign sample_verify 40
              (Form.mk "Walk the dog" "" "completed") sample_client)
           sample_store).
Proof.
  assert (signed_in sample_verify 40 sample_client 1) as Hin.
  { exists "token-of-a@x.com", (mkClaims 1 "a@x.com").
    repeat split. discriminate. }
  assert (Form.title (Form.mk "Walk the dog" "" "completed") <> "") as Hti
      by discriminate.
  assert (forall x, In x (tasks sample_store) -> Task.user_id x = 1 ->
                    Task.created_at x < 40) as Hclock.
  { intros x [<-|[]] _. cbn. lia. }
  destruct (add_task_in_sync decimal_of_text sample_hash sample_compare
              sample_sign sample_verify 40 sample_client sample_store 1
              (Form.mk "Walk the dog" "" "completed")
              eq_refl Hin eq_refl Hti Hclock)
    as (t & _ & _ & _ & _ & _ & _ & H & _).
  exact H.
Defined.

Lemma delete_task_in_sync_witness :
  in_sync 1
    (reply (handleDeleteTask decimal_of_text sample_hash sample_compare
              sample_sign sample_verify 50 (Task.id milk) true sample_client)
           sample_store)
    (after (handleDeleteTask decimal_of_text sample_hash sample_compare
              sample_sign sample_verify 50 (Task.id milk) true sample_client)
           sample_store).
Proof.
  assert (signed_in sample_verify 50 sample_client 1) as Hin.
  { exists "token-of-a@x.com", (mkClaims 1 "a@x.com").
    repeat split. discriminate. }
  assert (In (Some milk) (Client.tasks sample_client)) as Hs
      by (left; reflexivity).
  destruct (delete_task_in_sync decimal_of_text sample_hash sample_compare
              sample_sign sample_verify 50 sample_client sample_store 1 milk
              eq_refl Hin eq_refl Hs eq_refl)
    as (_ & _ & _ & H & _).
  exact H.
Defined.

Lemma edit_unchanged_keeps_fields_witness :
  In (Task.mk 1 "Buy milk" "2 litres" "completed" 1 10 50)
     (tasks (after (handleUpdateTask decimal_of_text sample_hash
                      sample_compare sample_sign sample_verify 50
                      (populate_form (Some milk) empty_form)
                      (handleEditTask milk sample_client)) sample_store)).
Proof.
  assert (signed_in sample_verify 50 sample_client 1) as Hin.
  { exists "token-of-a@x.com", (mkClaims 1 "a@x.com").
    repeat split. discriminate. }
  assert (In (Some milk) (Client.tasks sample_client)) as Hs
      by (left; reflexivity).
  assert (Task.title milk <> "") as Hti by discriminate.
  assert (Task.status milk <> "") as Hst by discriminate.
  destruct (edit_unchanged_keeps_fields decimal_of_text sample_hash
              sample_compare sample_sign sample_verify 50 sample_client
              sample_store 1 milk eq_refl Hin eq_refl Hs Hti Hst eq_refl)
    as (new & Hnew & -> & _).
  exact Hnew.
Defined.

(** A wrong password for account 1, typed in the login form. *)
Lemma login_form_invalid_credentials_witness :
  Client.loginError
    (reply (handleSubmit decimal_of_text sample_hash sample_compare sample_sign
              sample_verify 50 "s" false "a@x.com" "wrong-password"
              stale_client) sample_store)
  = "Invalid credentials".
Proof.
  assert ("a@x.com" <> "") as He by discriminate.
  assert ("wrong-password" <> "") as Hp by discriminate.
  apply (login_form_invalid_credentials decimal_of_text sample_hash
           sample_compare sample_sign sample_verify 50 "s" stale_client
           sample_store "a@x.com" "wrong-password" He Hp).
  right. eexists. split; reflexivity.
Defined.

(** A third account signs up through the form. *)
Lemma signup_form_signs_in_witness :
  signed_in sample_verify 61
    (reply (handleSubmit decimal_of_text sample_hash sample_compare sample_sign
              sample_verify 60 "s3" true "c@x.com" "secret3" stale_client)
           sample_store)
    3.
Proof.
  assert ("c@x.com" <> "") as He by discriminate.
  assert (6 <= String.length "secret3")%nat as Hp by (cbn; lia).
  assert (sample_sign (users_seq sample_store + 1) "c@x.com" 60 <> "")
    as Hne by discriminate.
  apply (signup_form_signs_in decimal_of_text sample_hash sample_compare
           sample_sign sample_verify 60 61 "s3" stale_client sample_store
           "c@x.com" "secret3" He Hp eq_refl Hne eq_refl eq_refl).
Defined.
